(** * XinFin HTLC transactions: building, signing and the portable raw encoding

    A shallow embedding of [swap/providers/xinfin/transaction.py] and
    [swap/providers/xinfin/solver.py].  Python objects are records, methods are
    functions in a small state-and-exception monad, the chain node is a
    sequence of snapshots indexed by the number of requests served so far, and
    the transaction raw is the actual text: [json.dumps], UTF-8 and base64 are
    written out on characters. *)

From Stdlib Require Import ZArith NArith List String Ascii Bool Lia.
From Stdlib Require Import DecimalString DecimalPos DecimalZ.
Import ListNotations.

Set Warnings "-register-all".

(* ================================================================= *)
(** * Part I: definitions *)
(* ================================================================= *)

(** ** Python values

    The values that the builder stores and serialises: [None], [int], [str]
    and [dict] with [str] keys.  A [dict] keeps insertion order, which
    [json.dumps] follows, hence an association list.  A [str] is a sequence of
    code points; code points below 256 are represented, one [ascii] each. *)

Inductive pyval : Type :=
| PNone
| PInt (z : Z)
| PStr (s : string)
| PDict (d : list (string * pyval)).

Definition pydict : Type := list (string * pyval).

(** [d[k]] and [d[k] = v] on an insertion-ordered dict. *)
Fixpoint dict_get (k : string) (d : pydict) : option pyval :=
  match d with
  | [] => None
  | (k', v) :: d' => if String.eqb k k' then Some v else dict_get k d'
  end.

Fixpoint dict_set (k : string) (v : pyval) (d : pydict) : pydict :=
  match d with
  | [] => [(k, v)]
  | (k', v') :: d' =>
      if String.eqb k k' then (k', v) :: d' else (k', v') :: dict_set k v d'
  end.

(** [dict(pairs)]: later pairs overwrite earlier ones in place. *)
Definition dict_of_pairs (l : list (string * pyval)) : pydict :=
  fold_left (fun d kv => dict_set (fst kv) (snd kv) d) l [].

(** Truth value of an [Optional[dict]]: [None] and [{}] are false. *)
Definition truthy (d : option pydict) : bool :=
  match d with
  | Some (_ :: _) => true
  | _ => false
  end.

(** Keys of every dict, at every depth, are pairwise distinct: what a Python
    [dict] guarantees by construction. *)
Fixpoint wf_val (v : pyval) : Prop :=
  match v with
  | PDict d =>
      NoDup (map fst d) /\
      (fix wf_items (d : list (string * pyval)) : Prop :=
         match d with
         | [] => True
         | (_, x) :: d' => wf_val x /\ wf_items d'
         end) d
  | _ => True
  end.

Fixpoint wf_items (d : pydict) : Prop :=
  match d with
  | [] => True
  | (_, x) :: d' => wf_val x /\ wf_items d'
  end.

(** Number of values and dict entries in a value: the fuel [loads] needs. *)
Fixpoint size (v : pyval) : nat :=
  match v with
  | PDict d =>
      S ((fix size_items (d : list (string * pyval)) : nat :=
            match d with
            | [] => 0
            | (_, x) :: d' => S (size x + size_items d')
            end) d)
  | _ => 1
  end.

Fixpoint size_items (d : pydict) : nat :=
  match d with
  | [] => 0
  | (_, x) :: d' => S (size x + size_items d')
  end.

(** ** Characters *)

Module Chr.

Definition quote : ascii := "034"%char.
Definition backslash : ascii := "092"%char.
Definition lf : ascii := "010"%char.
Definition cr : ascii := "013"%char.
Definition tab : ascii := "009"%char.
Definition bs : ascii := "008"%char.
Definition ff : ascii := "012"%char.

Definition code (c : ascii) : N := N_of_ascii c.

Definition is_ws (c : ascii) : bool :=
  Ascii.eqb c " " || Ascii.eqb c tab || Ascii.eqb c lf || Ascii.eqb c cr.

(** Characters of an integer literal. *)
Definition is_num (c : ascii) : bool :=
  Ascii.eqb c "-" || ((48 <=? code c)%N && (code c <=? 57)%N).

Definition hex_digit (n : N) : ascii :=
  match n with
  | 0 => "0" | 1 => "1" | 2 => "2" | 3 => "3" | 4 => "4" | 5 => "5"
  | 6 => "6" | 7 => "7" | 8 => "8" | 9 => "9" | 10 => "a" | 11 => "b"
  | 12 => "c" | 13 => "d" | 14 => "e" | _ => "f"
  end%N%char.

Definition hex_value (c : ascii) : option N :=
  let n := code c in
  if ((48 <=? n) && (n <=? 57))%N then Some (n - 48)%N
  else if ((97 <=? n) && (n <=? 102))%N then Some (n - 87)%N
  else if ((65 <=? n) && (n <=? 70))%N then Some (n - 55)%N
  else None.

End Chr.

Definition text : Type := list ascii.

Definition T (s : string) : text := list_ascii_of_string s.

Fixpoint skip_ws (s : text) : text :=
  match s with
  | c :: s' => if Chr.is_ws c then skip_ws s' else s
  | [] => []
  end.

Fixpoint strip_prefix (p s : text) : option text :=
  match p, s with
  | [], _ => Some s
  | a :: p', b :: s' => if Ascii.eqb a b then strip_prefix p' s' else None
  | _ :: _, [] => None
  end.

(** ** [json.dumps] and [json.loads]

    [json.dumps] with its defaults: [ensure_ascii=True], item separator
    [", "], key separator [": "]. *)

Module Json.

(** [ESCAPE_ASCII]: the quote, the backslash and everything outside
    [' '..'~'] are escaped; the short escapes are those of [ESCAPE_DCT], the
    rest is [\u00xx] in lower-case hexadecimal. *)
Definition escape_char (c : ascii) : text :=
  if Ascii.eqb c Chr.quote then [Chr.backslash; Chr.quote]
  else if Ascii.eqb c Chr.backslash then [Chr.backslash; Chr.backslash]
  else if Ascii.eqb c Chr.lf then [Chr.backslash; "n"%char]
  else if Ascii.eqb c Chr.cr then [Chr.backslash; "r"%char]
  else if Ascii.eqb c Chr.tab then [Chr.backslash; "t"%char]
  else if Ascii.eqb c Chr.bs then [Chr.backslash; "b"%char]
  else if Ascii.eqb c Chr.ff then [Chr.backslash; "f"%char]
  else if (32 <=? Chr.code c)%N && (Chr.code c <=? 126)%N then [c]
  else [Chr.backslash; "u"%char; "0"%char; "0"%char;
        Chr.hex_digit (Chr.code c / 16); Chr.hex_digit (Chr.code c mod 16)].

Fixpoint escape (s : text) : text :=
  match s with
  | [] => []
  | c :: s' => escape_char c ++ escape s'
  end.

Definition encode_str (s : string) : text :=
  Chr.quote :: escape (T s) ++ [Chr.quote].

(** [repr] of an [int]. *)
Definition encode_int (z : Z) : text :=
  T (NilZero.string_of_int (Z.to_int z)).

Fixpoint dumps (v : pyval) : text :=
  match v with
  | PNone => T "null"
  | PInt z => encode_int z
  | PStr s => encode_str s
  | PDict d =>
      "{"%char ::
      (fix items (d : list (string * pyval)) : text :=
         match d with
         | [] => []
         | (k, x) :: d' =>
             encode_str k ++ T ": " ++ dumps x ++
             match d' with
             | [] => []
             | _ :: _ => T ", " ++ items d'
             end
         end) d ++ ["}"%char]
  end.

Fixpoint dumps_items (d : pydict) : text :=
  match d with
  | [] => []
  | (k, x) :: d' =>
      encode_str k ++ T ": " ++ dumps x ++
      match d' with
      | [] => []
      | _ :: _ => T ", " ++ dumps_items d'
      end
  end.

(** [BACKSLASH]: the one-letter escapes [py_scanstring] accepts. *)
Definition unescape (e : ascii) : option ascii :=
  if Ascii.eqb e Chr.quote then Some Chr.quote
  else if Ascii.eqb e Chr.backslash then Some Chr.backslash
  else if Ascii.eqb e "/" then Some "/"%char
  else if Ascii.eqb e "b" then Some Chr.bs
  else if Ascii.eqb e "f" then Some Chr.ff
  else if Ascii.eqb e "n" then Some Chr.lf
  else if Ascii.eqb e "r" then Some Chr.cr
  else if Ascii.eqb e "t" then Some Chr.tab
  else None.

Definition hex4 (a b c d : ascii) : option N :=
  match Chr.hex_value a, Chr.hex_value b, Chr.hex_value c, Chr.hex_value d with
  | Some x, Some y, Some z, Some w => Some (((x * 16 + y) * 16 + z) * 16 + w)%N
  | _, _, _, _ => None
  end.

Definition cons_fst (c : ascii) (r : option (text * text)) : option (text * text) :=
  match r with
  | Some (s, rest) => Some (c :: s, rest)
  | None => None
  end.

(** [py_scanstring], strict: the text after an opening quote, up to and
    including the closing one.  A [\uXXXX] escape of a code point that the
    string type cannot hold is refused. *)
Fixpoint scanstring (s : text) : option (text * text) :=
  match s with
  | [] => None
  | c :: rest =>
      if Ascii.eqb c Chr.quote then Some ([], rest)
      else if Ascii.eqb c Chr.backslash then
        match rest with
        | [] => None
        | e :: rest1 =>
            if Ascii.eqb e "u" then
              match rest1 with
              | h1 :: h2 :: h3 :: h4 :: rest2 =>
                  match hex4 h1 h2 h3 h4 with
                  | Some n =>
                      if (n <? 256)%N
                      then cons_fst (ascii_of_N n) (scanstring rest2)
                      else None
                  | None => None
                  end
              | _ => None
              end
            else
              match unescape e with
              | Some ch => cons_fst ch (scanstring rest1)
              | None => None
              end
        end
      else if (Chr.code c <? 32)%N then None
      else cons_fst c (scanstring rest)
  end.

Fixpoint span_num (s : text) : text * text :=
  match s with
  | c :: s' =>
      if Chr.is_num c
      then let (lit, rest) := span_num s' in (c :: lit, rest)
      else ([], s)
  | [] => ([], [])
  end.

Fixpoint text_eqb (a b : text) : bool :=
  match a, b with
  | [], [] => true
  | x :: a', y :: b' => Ascii.eqb x y && text_eqb a' b'
  | _, _ => false
  end.

(** What may follow an integer literal: not a character that continues it. *)
Definition follow_ok (rest : text) : Prop :=
  match rest with
  | [] => True
  | c :: _ => Chr.is_num c = false
  end.

(** An integer literal: the longest run of sign and digit characters, read as
    a decimal and accepted when it is the canonical literal of its value. *)
Definition scan_int (s : text) : option (Z * text) :=
  let (lit, rest) := span_num s in
  match NilZero.int_of_string (string_of_list_ascii lit) with
  | Some d =>
      let z := Z.of_int d in
      if text_eqb (encode_int z) lit then Some (z, rest) else None
  | None => None
  end.

(** [scan_once] and [JSONObject]: one unit of fuel per value and per entry. *)
Fixpoint scan_once (fuel : nat) (s : text) : option (pyval * text) :=
  match fuel with
  | O => None
  | S fuel' =>
      match s with
      | [] => None
      | c :: s1 =>
          if Ascii.eqb c Chr.quote then
            match scanstring s1 with
            | Some (str, rest) => Some (PStr (string_of_list_ascii str), rest)
            | None => None
            end
          else if Ascii.eqb c "{" then
            match skip_ws s1 with
            | c1 :: s2 =>
                if Ascii.eqb c1 "}" then Some (PDict [], s2)
                else
                  match scan_pairs fuel' (c1 :: s2) with
                  | Some (pairs, rest) => Some (PDict (dict_of_pairs pairs), rest)
                  | None => None
                  end
            | [] => None
            end
          else if Ascii.eqb c "n" then
            match strip_prefix (T "ull") s1 with
            | Some rest => Some (PNone, rest)
            | None => None
            end
          else
            match scan_int s with
            | Some (z, rest) => Some (PInt z, rest)
            | None => None
            end
      end
  end
with scan_pairs (fuel : nat) (s : text) : option (list (string * pyval) * text) :=
  match fuel with
  | O => None
  | S fuel' =>
      match s with
      | [] => None
      | c :: s1 =>
          if Ascii.eqb c Chr.quote then
            match scanstring s1 with
            | Some (k, s2) =>
                match skip_ws s2 with
                | c2 :: s3 =>
                    if Ascii.eqb c2 ":" then
                      match scan_once fuel' (skip_ws s3) with
                      | Some (x, s4) =>
                          match skip_ws s4 with
                          | c4 :: s5 =>
                              if Ascii.eqb c4 "}" then
                                Some ([(string_of_list_ascii k, x)], s5)
                              else if Ascii.eqb c4 "," then
                                match scan_pairs fuel' (skip_ws s5) with
                                | Some (m, s6) =>
                                    Some ((string_of_list_ascii k, x) :: m, s6)
                                | None => None
                                end
                              else None
                          | [] => None
                          end
                      | None => None
                      end
                    else None
                | [] => None
                end
            | None => None
            end
          else None
      end
  end.

(** [json.loads]: leading and trailing white space is skipped, anything else
    after the value is an error. *)
Definition loads (s : text) : option pyval :=
  match scan_once (S (List.length s)) (skip_ws s) with
  | Some (v, rest) =>
      match skip_ws rest with
      | [] => Some v
      | _ :: _ => None
      end
  | None => None
  end.

End Json.

(** ** [str.encode()] and [bytes.decode()]: UTF-8

    A byte is an [ascii] as well.  Code points below 128 are one byte, those
    from 128 to 255 two bytes; a byte sequence that decodes to a code point
    the string type cannot hold is refused. *)

Definition bytes : Type := list ascii.

Module Utf8.

Definition encode_char (c : ascii) : bytes :=
  if (Chr.code c <? 128)%N then [c]
  else [ascii_of_N (192 + Chr.code c / 64); ascii_of_N (128 + Chr.code c mod 64)].

Fixpoint encode (s : text) : bytes :=
  match s with
  | [] => []
  | c :: s' => encode_char c ++ encode s'
  end.

Definition cons_opt (c : ascii) (r : option text) : option text :=
  match r with
  | Some s => Some (c :: s)
  | None => None
  end.

Fixpoint decode (b : bytes) : option text :=
  match b with
  | [] => Some []
  | x :: b1 =>
      if (Chr.code x <? 128)%N then cons_opt x (decode b1)
      else if ((Chr.code x =? 194) || (Chr.code x =? 195))%N then
        match b1 with
        | y :: b2 =>
            if ((128 <=? Chr.code y) && (Chr.code y <? 192))%N
            then cons_opt
                   (ascii_of_N ((Chr.code x - 192) * 64 + (Chr.code y - 128)))
                   (decode b2)
            else None
        | [] => None
        end
      else None
  end.

End Utf8.

(** ** [base64.b64encode] and [base64.b64decode]: the standard alphabet with
    ['='] padding; the decoder is strict. *)

Module Base64.

Definition pad : ascii := "="%char.

Definition digit (n : N) : ascii :=
  if (n <? 26)%N then ascii_of_N (65 + n)
  else if (n <? 52)%N then ascii_of_N (71 + n)
  else if (n <? 62)%N then ascii_of_N (n - 4)
  else if (n =? 62)%N then "+"%char
  else "/"%char.

Definition value (c : ascii) : option N :=
  let n := Chr.code c in
  if ((65 <=? n) && (n <=? 90))%N then Some (n - 65)%N
  else if ((97 <=? n) && (n <=? 122))%N then Some (n - 71)%N
  else if ((48 <=? n) && (n <=? 57))%N then Some (n + 4)%N
  else if Ascii.eqb c "+" then Some 62%N
  else if Ascii.eqb c "/" then Some 63%N
  else None.

Fixpoint b64encode (b : bytes) : text :=
  match b with
  | [] => []
  | [x] =>
      let n := Chr.code x in
      [digit (n / 4); digit (n mod 4 * 16); pad; pad]
  | [x; y] =>
      let n := Chr.code x in
      let m := Chr.code y in
      [digit (n / 4); digit (n mod 4 * 16 + m / 16); digit (m mod 16 * 4); pad]
  | x :: y :: z :: b' =>
      let n := Chr.code x in
      let m := Chr.code y in
      let k := Chr.code z in
      digit (n / 4) :: digit (n mod 4 * 16 + m / 16) ::
      digit (m mod 16 * 4 + k / 64) :: digit (k mod 64) :: b64encode b'
  end%N.

Definition app_opt (p : bytes) (r : option bytes) : option bytes :=
  match r with
  | Some b => Some (p ++ b)
  | None => None
  end.

Fixpoint b64decode (s : text) : option bytes :=
  match s with
  | [] => Some []
  | a :: b :: c :: d :: s' =>
      match value a, value b with
      | Some p, Some q =>
          if Ascii.eqb d pad then
            match s' with
            | [] =>
                if Ascii.eqb c pad then Some [ascii_of_N (p * 4 + q / 16)]
                else
                  match value c with
                  | Some r =>
                      Some [ascii_of_N (p * 4 + q / 16);
                            ascii_of_N (q mod 16 * 16 + r / 4)]
                  | None => None
                  end
            | _ :: _ => None
            end
          else
            match value c, value d with
            | Some r, Some t =>
                app_opt [ascii_of_N (p * 4 + q / 16);
                         ascii_of_N (q mod 16 * 16 + r / 4);
                         ascii_of_N (r mod 4 * 64 + t)]
                        (b64decode s')
            | _, _ => None
            end
      | _, _ => None
      end
  | _ => None
  end%N.

(** Padding up to a multiple of four characters. *)
Definition pad4 (s : text) : text :=
  s ++ repeat pad ((4 - List.length s mod 4) mod 4).

(** Removal of the trailing padding. *)
Fixpoint rstrip_pad (s : text) : text :=
  match s with
  | [] => []
  | c :: s' =>
      match rstrip_pad s' with
      | [] => if Ascii.eqb c pad then [] else [c]
      | r => c :: r
      end
  end.

End Base64.

(** ** Exceptions and the method monad *)

Inductive exn : Type :=
| ValueError (msg : string)
| TypeError (msg : string)
| KeyError (key : string)
| IndexError (msg : string)
| AddressError (msg : string) (detail : option string)
| NetworkError (msg : string) (detail : string)
| UnitError (msg : string) (detail : string)
| ProviderError (msg : string).

Inductive result (A : Type) : Type :=
| Ok (a : A)
| Raise (e : exn).

Arguments Ok {A} a.
Arguments Raise {A} e.

Definition and_then {A B : Type} (r : result A) (k : A -> result B) : result B :=
  match r with
  | Ok a => k a
  | Raise e => Raise e
  end.

(** A method is a function of the mutable state: it returns a value or raises,
    and in both cases leaves a state behind (an assignment made before an
    exception stays made). *)
Definition M (S A : Type) : Type := S -> result A * S.

Definition ret {S A : Type} (a : A) : M S A := fun s => (Ok a, s).

Definition raise {S A : Type} (e : exn) : M S A := fun s => (Raise e, s).

Definition bind {S A B : Type} (m : M S A) (k : A -> M S B) : M S B :=
  fun s =>
    match m s with
    | (Ok a, s') => k a s'
    | (Raise e, s') => (Raise e, s')
    end.

Definition lift {S A : Type} (r : result A) : M S A := fun s => (r, s).

Definition get {S : Type} : M S S := fun s => (Ok s, s).

Definition modify {S : Type} (f : S -> S) : M S unit := fun s => (Ok tt, f s).

Declare Scope method_scope.
Delimit Scope method_scope with method.
Notation "x <- m ;; k" := (bind m (fun x => k))
  (at level 61, m at next level, right associativity) : method_scope.
Notation "m ;; k" := (bind m (fun _ => k))
  (at level 61, right associativity) : method_scope.

Open Scope string_scope.

(** ** The collaborators outside the module *)

(** [web3.eth.contract(address=..., abi=...)]. *)
Record Contract : Type := {
  contract_address : string;
  contract_abi : string
}.

(** [htlc_contract.functions.fund(...)], [.withdraw(...)], [.refund(...)]. *)
Inductive Call : Type :=
| fund (c : Contract) (secret_hash recipient_address sender_address : string)
       (endtime : Z)
| withdraw (c : Contract) (locked_contract_id secret_key : string)
| refund (c : Contract) (locked_contract_id : string).

Definition callee (f : Call) : Contract :=
  match f with
  | fund c _ _ _ _ => c
  | withdraw c _ _ => c
  | refund c _ => c
  end.

(** The agreements of an HTLC, [htlc.agreements], [None] until the HTLC is
    built. *)
Record Agreements : Type := {
  secret_hash : string;
  recipient_address : string;
  sender_address : string;
  endtime : Z
}.

Record HTLC : Type := {
  agreements : option Agreements;
  htlc_contract_address : string;
  htlc_abi : string
}.

Record Receipt : Type := { logs : list string }.

(** [eth_account.datastructures.SignedTransaction]. *)
Record SignedTransaction : Type := {
  st_rawTransaction : bytes;
  st_hash : bytes;
  st_r : Z;
  st_s : Z;
  st_v : Z
}.

(** [get_web3(network, provider)]: which node the requests go to. *)
Record Web3 : Type := {
  web3_network : string;
  web3_provider : string
}.

(** What the node answers to one request.  The node is asked again at every
    request, and its state may have moved in between. *)
Record Node : Type := {
  get_transaction_count : string -> result Z;
  gasPrice : result Z;
  chainId : result Z;
  estimateGas : Call -> pydict -> result Z;
  get_transaction_receipt : string -> result Receipt;
  get_htlc : option string -> string -> result HTLC
}.

Inductive Request : Type :=
| GetTransactionCount (address : string)
| GasPrice
| EstimateGas (f : Call) (transaction : pydict)
| BuildTransaction (f : Call) (transaction : pydict)
| GetTransactionReceipt (transaction_hash : string)
| GetHTLC (transaction_hash : option string) (network : string).

(** Configuration, utilities, wallet, signer and node: everything the module
    imports and the sources do not contain. *)
Record Env : Type := {
  config_network : string;
  config_provider : string;
  config_unit : string;
  config_BIP44 : Z -> Z -> Z -> string;
  is_network : string -> bool;
  is_address : string -> bool;
  to_checksum_address : string -> string -> string;
  amount : Type;
  amount_unit_converter : option Z -> string -> result amount;
  hd_private_key : string -> string -> string;
  ecdsa : pydict -> string -> result SignedTransaction;
  encodeABI : Call -> string;
  processLog : Contract -> string -> result string;
  chain : Web3 -> nat -> Node
}.

(** ** Python objects passed as arguments

    A caller can pass any object where a solver or an HTLC is expected; the
    methods test the class with [isinstance]. *)

Inductive Role : Type := Fund | Withdraw | Refund.

Record Solver : Type := {
  _xprivate_key : string;
  _path : string
}.

Inductive pyobject : Type :=
| SolverObject (cls : Role) (s : Solver)
| HTLCObject (h : HTLC)
| OtherObject (type_name : string).

Definition solver_class_name (r : Role) : string :=
  match r with
  | Fund => "FundSolver"
  | Withdraw => "WithdrawSolver"
  | Refund => "RefundSolver"
  end.

(** [type(o).__name__]. *)
Definition type_name_of (o : pyobject) : string :=
  match o with
  | SolverObject r _ => solver_class_name r
  | HTLCObject _ => "HTLC"
  | OtherObject n => n
  end.

Definition role_eqb (a b : Role) : bool :=
  match a, b with
  | Fund, Fund | Withdraw, Withdraw | Refund, Refund => true
  | _, _ => false
  end.

(** [isinstance(o, FundSolver)] and the like: the three solver classes do not
    inherit from one another. *)
Definition isinstance_solver (o : pyobject) (r : Role) : bool :=
  match o with
  | SolverObject r' _ => role_eqb r' r
  | _ => false
  end.

(** ** solver.py *)

Record Wallet : Type := {
  wallet_network : string;
  wallet_xprivate_key : string;
  wallet_path : string
}.

Module SolverClass.
Section WithEnv.
Variable E : Env.

(** [__init__], the same in the three classes. *)
Definition init (xprivate_key : string) (account : Z) (change : bool)
    (address : Z) (path : option string) : Solver :=
  let path :=
    match path with
    | None => config_BIP44 E account (if change then 1 else 0)%Z address
    | Some p => p
    end in
  {| _xprivate_key := xprivate_key; _path := path |}.

(** [solve(network)]:
    [Wallet(network).from_root_xprivate_key(xprivate_key).from_path(path)]. *)
Definition solve (s : Solver) (network : string) : Wallet :=
  {| wallet_network := network;
     wallet_xprivate_key := _xprivate_key s;
     wallet_path := _path s |}.

Definition private_key (w : Wallet) : string :=
  hd_private_key E (wallet_xprivate_key w) (wallet_path w).

End WithEnv.
End SolverClass.

Definition FundSolver (E : Env) (xprivate_key : string) (account : Z)
    (change : bool) (address : Z) (path : option string) : pyobject :=
  SolverObject Fund (SolverClass.init E xprivate_key account change address path).

Definition WithdrawSolver (E : Env) (xprivate_key : string) (account : Z)
    (change : bool) (address : Z) (path : option string) : pyobject :=
  SolverObject Withdraw (SolverClass.init E xprivate_key account change address path).

Definition RefundSolver (E : Env) (xprivate_key : string) (account : Z)
    (change : bool) (address : Z) (path : option string) : pyobject :=
  SolverObject Refund (SolverClass.init E xprivate_key account change address path).

(** ** transaction.py: class [Transaction] *)

Record Transaction : Type := {
  _network : string;
  web3 : Web3;
  _transaction : option pydict;
  _signature : option pydict;
  _type : option string;
  _fee : option Z
}.

Definition set_transaction (d : pydict) (t : Transaction) : Transaction :=
  {| _network := _network t; web3 := web3 t; _transaction := Some d;
     _signature := _signature t; _type := _type t; _fee := _fee t |}.

Definition set_signature (d : pydict) (t : Transaction) : Transaction :=
  {| _network := _network t; web3 := web3 t; _transaction := _transaction t;
     _signature := Some d; _type := _type t; _fee := _fee t |}.

Definition set_type (ty : string) (t : Transaction) : Transaction :=
  {| _network := _network t; web3 := web3 t; _transaction := _transaction t;
     _signature := _signature t; _type := Some ty; _fee := _fee t |}.

Definition set_fee (f : Z) (t : Transaction) : Transaction :=
  {| _network := _network t; web3 := web3 t; _transaction := _transaction t;
     _signature := _signature t; _type := _type t; _fee := Some f |}.

Definition py_int (z : option Z) : pyval :=
  match z with Some n => PInt n | None => PNone end.

Definition py_str (s : option string) : pyval :=
  match s with Some x => PStr x | None => PNone end.

Definition py_dict (d : option pydict) : pyval :=
  match d with Some x => PDict x | None => PNone end.

(** What [fee] returns: the stored fee, or what the unit converter made of
    it. *)
Inductive fee_value (A : Type) : Type :=
| FeeWei (f : option Z)
| FeeConverted (a : A).

Arguments FeeWei {A} f.
Arguments FeeConverted {A} a.

Definition not_built : exn :=
  ValueError "Transaction is none, build transaction first.".

(** [HexBytes.hex()]. *)
Fixpoint hex_digits (b : bytes) : string :=
  match b with
  | [] => ""
  | x :: b' =>
      String (Chr.hex_digit (Chr.code x / 16))
        (String (Chr.hex_digit (Chr.code x mod 16)) (hex_digits b'))
  end.

Definition hex (b : bytes) : string := "0x" ++ hex_digits b.

(** Modelled from the spec: [clean_transaction_raw] of [swap/utils] is not in
    the sources.  The raw is a URL-safe blob, and the sample output in the
    docstring of [transaction_raw] has no ['='] at its end: the padding of the
    base64 text is removed. *)
Definition clean_transaction_raw (s : text) : text := Base64.rstrip_pad s.

(** [eth.account.sign_transaction]: refuses what is not a mapping, and signs
    a mapping with the key. *)
Definition sign_transaction (E : Env) (transaction_dict : option pydict)
    (private_key : string) : result SignedTransaction :=
  match transaction_dict with
  | None => Raise (TypeError "transaction_dict must be dict-like, got None")
  | Some d => ecdsa E d private_key
  end.

(** [web3]'s [buildTransaction]: the fields given are kept, the chain id, the
    contract address and the encoded call are added (the order is that of
    the docstring of [json]). *)
Definition buildTransaction (E : Env) (n : Node) (f : Call)
    (transaction : pydict) : result pydict :=
  and_then (chainId n) (fun chain_id =>
    Ok (("chainId", PInt chain_id) :: transaction ++
        [("to", PStr (contract_address (callee f)));
         ("data", PStr (encodeABI E f))])%list).

Module TransactionClass.
Section WithEnv.
Variable E : Env.

Definition init (network provider : string) : result Transaction :=
  if negb (is_network E network) then
    Raise (NetworkError ("Invalid XinFin '" ++ network ++ "' network")
             "choose only 'mainnet', 'ropsten', 'kovan', 'rinkeby' or 'testnet' networks.")
  else
    Ok {| _network := network;
          web3 := {| web3_network := network; web3_provider := provider |};
          _transaction := None; _signature := None; _type := None;
          _fee := None |}.

Definition valid_unit (unit : string) : bool :=
  String.eqb unit "XDC" || String.eqb unit "Gwei" || String.eqb unit "Wei".

Definition fee (self : Transaction) (unit : string) : result (fee_value (amount E)) :=
  if negb (truthy (_transaction self)) then Raise not_built
  else if negb (valid_unit unit) then
    Raise (UnitError ("Invalid XinFin '" ++ unit ++ "' unit")
             "choose only 'XDC', 'Gwei' or 'Wei' units.")
  else if String.eqb unit "Wei" then Ok (FeeWei (_fee self))
  else and_then (amount_unit_converter E (_fee self) ("Wei2" ++ unit))
         (fun a => Ok (FeeConverted a)).

(** [self._signature[key] if self._signature else None]. *)
Definition signature_item (self : Transaction) (key : string) : result pyval :=
  if truthy (_signature self) then
    match _signature self with
    | Some d =>
        match dict_get key d with
        | Some v => Ok v
        | None => Raise (KeyError key)
        end
    | None => Ok PNone
    end
  else Ok PNone.

Definition hash (self : Transaction) : result pyval :=
  if negb (truthy (_transaction self)) then Raise not_built
  else signature_item self "hash".

Definition json (self : Transaction) : result pyval :=
  if negb (truthy (_transaction self)) then Raise not_built
  else Ok (py_dict (_transaction self)).

Definition raw (self : Transaction) : result pyval :=
  if negb (truthy (_transaction self)) then Raise not_built
  else signature_item self "rawTransaction".

Definition type (self : Transaction) : result pyval :=
  if negb (truthy (_transaction self)) then Raise not_built
  else Ok (py_str (_type self)).

Definition signature (self : Transaction) : result pyval :=
  if negb (truthy (_transaction self)) then Raise not_built
  else Ok (py_dict (_signature self)).

(** The dict that [transaction_raw] serialises. *)
Definition raw_dict (self : Transaction) : pydict :=
  [("fee", py_int (_fee self));
   ("transaction", py_dict (_transaction self));
   ("signature", py_dict (_signature self));
   ("network", PStr (_network self));
   ("type", py_str (_type self))].

Definition transaction_raw (self : Transaction) : result string :=
  if negb (truthy (_transaction self)) then Raise not_built
  else
    Ok (string_of_list_ascii
          (clean_transaction_raw
             (Base64.b64encode (Utf8.encode (Json.dumps (PDict (raw_dict self))))))).

End WithEnv.
End TransactionClass.

(** ** transaction.py: the three builders *)

(** The object under construction and the requests its node has served. *)
Record State : Type := {
  self : Transaction;
  served : list Request
}.

Definition on_self (f : Transaction -> Transaction) : M State unit :=
  modify (fun st => {| self := f (self st); served := served st |}).

(** The dict made by [sign]: [dict(hash=..., rawTransaction=..., r=..., s=...,
    v=...)]. *)
Definition signature_dict (signed : SignedTransaction) : pydict :=
  [("hash", PStr (hex (st_hash signed)));
   ("rawTransaction", PStr (hex (st_rawTransaction signed)));
   ("r", PInt (st_r signed));
   ("s", PInt (st_s signed));
   ("v", PInt (st_v signed))].

Section Builders.
Variable E : Env.

Open Scope method_scope.

(** One request to the node of [self.web3]: answered from the node's state at
    that moment, and recorded. *)
Definition request {A : Type} (r : Request) (ans : Node -> result A) : M State A :=
  fun st =>
    (ans (chain E (web3 (self st)) (List.length (served st))),
     {| self := self st; served := (served st ++ [r])%list |}).

(** The tail shared, word for word, by the three [build_transaction]: the fee
    is estimated and stored, then the transaction is built with the fee as
    gas and stored, then the type is set.  The dict literals are evaluated
    entry by entry, so the count and the gas price are asked for twice. *)
Definition estimate_and_build (f : Call) (address : string) (value : Z)
    (type : string) : M State unit :=
  let sender := to_checksum_address E address "0x" in
  nonce <- request (GetTransactionCount sender)
             (fun n => get_transaction_count n sender) ;;
  gas_price <- request GasPrice gasPrice ;;
  let estimated :=
    [("from", PStr sender); ("value", PInt value); ("nonce", PInt nonce);
     ("gasPrice", PInt gas_price)] in
  fee <- request (EstimateGas f estimated) (fun n => estimateGas n f estimated) ;;
  on_self (set_fee fee) ;;
  nonce <- request (GetTransactionCount sender)
             (fun n => get_transaction_count n sender) ;;
  gas_price <- request GasPrice gasPrice ;;
  let built :=
    [("from", PStr sender); ("value", PInt value); ("nonce", PInt nonce);
     ("gas", PInt fee); ("gasPrice", PInt gas_price)] in
  transaction <- request (BuildTransaction f built)
                   (fun n => buildTransaction E n f built) ;;
  on_self (set_transaction transaction) ;;
  on_self (set_type type).

(** [htlc.agreements[...]]: subscripting [None] is a [TypeError]. *)
Definition agreements_of (h : HTLC) : result Agreements :=
  match agreements h with
  | Some a => Ok a
  | None => Raise (TypeError "'NoneType' object is not subscriptable")
  end.

(** [log_fund["args"]["locked_contract_id"]] of the first log of the receipt
    of the funding transaction. *)
Definition locked_contract_id_of (c : Contract) (transaction_hash : string)
    : M State string :=
  transaction_receipt <- request (GetTransactionReceipt transaction_hash)
                           (fun n => get_transaction_receipt n transaction_hash) ;;
  match logs transaction_receipt with
  | log :: _ => lift (processLog E c log)
  | [] => raise (IndexError "list index out of range")
  end.

End Builders.

Module FundTransaction.
Section WithEnv.
Variable E : Env.

Open Scope method_scope.

Definition init (network provider : string) : result Transaction :=
  TransactionClass.init E network provider.

Definition build_transaction (address : string) (htlc : pyobject) (amount : Z)
    : M State unit :=
  h <- lift (match htlc with
             | HTLCObject h => Ok h
             | _ => Raise (TypeError "Invalid HTLC instance, only takes xinfin HTLC class")
             end) ;;
  if negb (is_address E address) then
    raise (AddressError ("Invalid XinFin sender '" ++ address ++ "' address.") None)
  else
    a <- lift (agreements_of h) ;;
    if negb (String.eqb (to_checksum_address E address "0x") (sender_address a)) then
      raise (AddressError ("Wrong XinFin sender '" ++ address ++ "' address")
               (Some "address must be equal with HTLC agreements sender address."))
    else
      let htlc_contract :=
        {| contract_address := htlc_contract_address h;
           contract_abi := htlc_abi h |} in
      let htlc_fund_function :=
        fund htlc_contract (secret_hash a) (recipient_address a)
          (sender_address a) (endtime a) in
      estimate_and_build E htlc_fund_function address amount "xinfin_fund_unsigned".

Definition sign (solver : pyobject) : M Transaction unit :=
  match solver with
  | SolverObject Fund s =>
      let wallet := SolverClass.solve s (config_network E) in
      this <- get ;;
      signed_fund_transaction <-
        lift (sign_transaction E (_transaction this)
                (SolverClass.private_key E wallet)) ;;
      modify (set_signature (signature_dict signed_fund_transaction)) ;;
      modify (set_type "xinfin_fund_signed")
  | _ =>
      raise (TypeError ("Solver must be XinFin FundSolver, not " ++
                        type_name_of solver ++ " type."))
  end.

End WithEnv.
End FundTransaction.

Module WithdrawTransaction.
Section WithEnv.
Variable E : Env.

Open Scope method_scope.

Definition init (network provider : string) : result Transaction :=
  TransactionClass.init E network provider.

Definition build_transaction (transaction_hash address secret_key : string)
    (htlc_transaction_hash : option string) : M State unit :=
  if negb (is_address E address) then
    raise (AddressError ("Invalid XinFin recipient '" ++ address ++ "' address.") None)
  else
    this <- get ;;
    h <- request E (GetHTLC htlc_transaction_hash (_network (self this)))
           (fun n => get_htlc n htlc_transaction_hash (_network (self this))) ;;
    let htlc_contract :=
      {| contract_address := htlc_contract_address h;
         contract_abi := htlc_abi h |} in
    locked_contract_id <- locked_contract_id_of E htlc_contract transaction_hash ;;
    let htlc_fund_function :=
      withdraw htlc_contract locked_contract_id secret_key in
    estimate_and_build E htlc_fund_function address 0 "xinfin_withdraw_unsigned".

Definition sign (solver : pyobject) : M Transaction unit :=
  match solver with
  | SolverObject Withdraw s =>
      let wallet := SolverClass.solve s (config_network E) in
      this <- get ;;
      signed_withdraw_transaction <-
        lift (sign_transaction E (_transaction this)
                (SolverClass.private_key E wallet)) ;;
      modify (set_signature (signature_dict signed_withdraw_transaction)) ;;
      modify (set_type "xinfin_withdraw_signed")
  | _ =>
      raise (TypeError ("Solver must be XinFin WithdrawSolver, not " ++
                        type_name_of solver ++ " type."))
  end.

End WithEnv.
End WithdrawTransaction.

Module RefundTransaction.
Section WithEnv.
Variable E : Env.

Open Scope method_scope.

Definition init (network provider : string) : result Transaction :=
  TransactionClass.init E network provider.

Definition build_transaction (transaction_hash address : string)
    (htlc_transaction_hash : option string) : M State unit :=
  if negb (is_address E address) then
    raise (AddressError ("Invalid XinFin recipient '" ++ address ++ "' address.") None)
  else
    this <- get ;;
    h <- request E (GetHTLC htlc_transaction_hash (_network (self this)))
           (fun n => get_htlc n htlc_transaction_hash (_network (self this))) ;;
    let htlc_contract :=
      {| contract_address := htlc_contract_address h;
         contract_abi := htlc_abi h |} in
    locked_contract_id <- locked_contract_id_of E htlc_contract transaction_hash ;;
    let htlc_refund_function := refund htlc_contract locked_contract_id in
    estimate_and_build E htlc_refund_function address 0 "xinfin_refund_unsigned".

Definition sign (solver : pyobject) : M Transaction unit :=
  match solver with
  | SolverObject Refund s =>
      let wallet := SolverClass.solve s (config_network E) in
      this <- get ;;
      signed_refund_transaction <-
        lift (sign_transaction E (_transaction this)
                (SolverClass.private_key E wallet)) ;;
      modify (set_signature (signature_dict signed_refund_transaction)) ;;
      modify (set_type "xinfin_refund_signed")
  | _ =>
      raise (TypeError ("Solver must be XinFin RefundSolver, not " ++
                        type_name_of solver ++ " type."))
  end.

End WithEnv.
End RefundTransaction.

(** ** The three roles side by side *)

Inductive BuildArgs : Type :=
| FundArgs (address : string) (htlc : pyobject) (amount : Z)
| WithdrawArgs (transaction_hash address secret_key : string)
    (htlc_transaction_hash : option string)
| RefundArgs (transaction_hash address : string)
    (htlc_transaction_hash : option string).

Definition role_of (a : BuildArgs) : Role :=
  match a with
  | FundArgs _ _ _ => Fund
  | WithdrawArgs _ _ _ _ => Withdraw
  | RefundArgs _ _ _ => Refund
  end.

Definition build_transaction_as (E : Env) (a : BuildArgs) : M State unit :=
  match a with
  | FundArgs address htlc amount =>
      FundTransaction.build_transaction E address htlc amount
  | WithdrawArgs transaction_hash address secret_key htlc_transaction_hash =>
      WithdrawTransaction.build_transaction E transaction_hash address
        secret_key htlc_transaction_hash
  | RefundArgs transaction_hash address htlc_transaction_hash =>
      RefundTransaction.build_transaction E transaction_hash address
        htlc_transaction_hash
  end.

Definition sign_as (E : Env) (r : Role) (solver : pyobject) : M Transaction unit :=
  match r with
  | Fund => FundTransaction.sign E solver
  | Withdraw => WithdrawTransaction.sign E solver
  | Refund => RefundTransaction.sign E solver
  end.

Definition unsigned_type (r : Role) : string :=
  match r with
  | Fund => "xinfin_fund_unsigned"
  | Withdraw => "xinfin_withdraw_unsigned"
  | Refund => "xinfin_refund_unsigned"
  end.

Definition signed_type (r : Role) : string :=
  match r with
  | Fund => "xinfin_fund_signed"
  | Withdraw => "xinfin_withdraw_signed"
  | Refund => "xinfin_refund_signed"
  end.

Definition is_ok {A : Type} (r : result A) : bool :=
  match r with
  | Ok _ => true
  | Raise _ => false
  end.

(** The life of one transaction object of role [r]: created by [__init__],
    then any sequence of [build_transaction] and [sign] calls, failed ones
    included (the accessors change nothing).  The flag tells whether some
    [build_transaction] has succeeded. *)
Inductive history (E : Env) (r : Role) : bool -> Transaction -> Prop :=
| history_init : forall network provider t,
    TransactionClass.init E network provider = Ok t ->
    history E r false t
| history_build : forall b t a w res st,
    history E r b t ->
    role_of a = r ->
    build_transaction_as E a {| self := t; served := w |} = (res, st) ->
    history E r (b || is_ok res) (self st)
| history_sign : forall b t solver res t',
    history E r b t ->
    sign_as E r solver t = (res, t') ->
    history E r b t'.

(** ** The raw decoder and the signature facade *)

Definition invalid_raw : exn := ValueError "invalid transaction raw".

Definition unsupported_type : exn := ValueError "unsupported transaction type".

(** Modelled from the spec: [decode_transaction_raw] of the provider's
    [utils] is not in the sources.  The raw is the base64 text of a JSON
    object carrying fee, transaction, signature, network and type; decoding
    returns the dict of exactly these five, and a blob that is not such a
    text fails with "invalid transaction raw". *)
Definition decode_transaction_raw (transaction_raw : string) : result pydict :=
  match Base64.b64decode (Base64.pad4 (T transaction_raw)) with
  | Some b =>
      match Utf8.decode b with
      | Some js =>
          match Json.loads js with
          | Some (PDict d) =>
              match dict_get "fee" d, dict_get "transaction" d,
                    dict_get "signature" d, dict_get "network" d,
                    dict_get "type" d with
              | Some f, Some t, Some s, Some n, Some ty =>
                  Ok [("fee", f); ("transaction", t); ("signature", s);
                      ("network", n); ("type", ty)]
              | _, _, _, _, _ => Raise invalid_raw
              end
          | _ => Raise invalid_raw
          end
      | None => Raise invalid_raw
      end
  | None => Raise invalid_raw
  end.

Definition role_of_type (type : string) : option Role :=
  if String.eqb type "xinfin_fund_unsigned" then Some Fund
  else if String.eqb type "xinfin_withdraw_unsigned" then Some Withdraw
  else if String.eqb type "xinfin_refund_unsigned" then Some Refund
  else None.

Module Signature.
Section WithEnv.
Variable E : Env.

(** Modelled from the spec: the in-memory unsigned transaction that the
    facade reconstructs from a decoded raw, every stored field taken from the
    raw (the provider of the node, which the raw does not carry, is the
    configured one). *)
Definition reconstruct (d : pydict) : result Transaction :=
  match d with
  | [(_, PInt f); (_, PDict t); (_, s); (_, PStr n); (_, PStr ty)] =>
      match s with
      | PNone | PDict _ =>
          Ok {| _network := n;
                web3 := {| web3_network := n; web3_provider := config_provider E |};
                _transaction := Some t;
                _signature := match s with PDict x => Some x | _ => None end;
                _type := Some ty;
                _fee := Some f |}
      | _ => Raise invalid_raw
      end
  | _ => Raise invalid_raw
  end.

(** Modelled from the spec: the signature facade of the provider's
    [signature] module is not in the sources.  It decodes the raw,
    reconstructs the unsigned transaction and runs the signing procedure of
    the builder of the role the type tag names; a raw with another tag fails
    with "unsupported transaction type".  The result is the signed object,
    whose [transaction_raw] is that of [Transaction]. *)
Definition sign (transaction_raw : string) (solver : pyobject) : result Transaction :=
  and_then (decode_transaction_raw transaction_raw) (fun d =>
  and_then (reconstruct d) (fun t =>
    match and_then (match _type t with Some ty => Ok ty | None => Raise invalid_raw end)
            (fun ty => match role_of_type ty with
                       | Some r => Ok r
                       | None => Raise unsupported_type
                       end) with
    | Ok r =>
        match sign_as E r solver t with
        | (Ok _, t') => Ok t'
        | (Raise e, _) => Raise e
        end
    | Raise e => Raise e
    end)).

(** Modelled from the spec: [FundSignature], [WithdrawSignature] and
    [RefundSignature], the facade of one role: as [sign], for a raw whose
    type tag is the unsigned tag of that role. *)
Definition sign_role (r : Role) (transaction_raw : string) (solver : pyobject)
    : result Transaction :=
  and_then (decode_transaction_raw transaction_raw) (fun d =>
  and_then (reconstruct d) (fun t =>
    if match _type t with
       | Some ty => String.eqb ty (unsigned_type r)
       | None => false
       end
    then
      match sign_as E r solver t with
      | (Ok _, t') => Ok t'
      | (Raise e, _) => Raise e
      end
    else Raise unsupported_type)).

End WithEnv.
End Signature.

(** ** Names for what the builders compute *)

Section Computed.
Variable E : Env.

(** The key a solver signs with. *)
Definition key_of (s : Solver) : string :=
  SolverClass.private_key E (SolverClass.solve s (config_network E)).

(** The unsigned transaction that [buildTransaction] assembles. *)
Definition assembled (f : Call) (address : string) (value chain_id nonce fee gas_price : Z)
    : pydict :=
  [("chainId", PInt chain_id);
   ("from", PStr (to_checksum_address E address "0x"));
   ("value", PInt value); ("nonce", PInt nonce); ("gas", PInt fee);
   ("gasPrice", PInt gas_price);
   ("to", PStr (contract_address (callee f)));
   ("data", PStr (encodeABI E f))].

(** The dict given to [estimateGas]. *)
Definition estimated (address : string) (value nonce gas_price : Z) : pydict :=
  [("from", PStr (to_checksum_address E address "0x"));
   ("value", PInt value); ("nonce", PInt nonce); ("gasPrice", PInt gas_price)].

(** The node as the [i]-th request from state [st] on sees it. *)
Definition node_at (st : State) (i : nat) : Node :=
  chain E (web3 (self st)) (List.length (served st) + i).

(** What the stored dicts look like: a transaction is one that
    [buildTransaction] assembled, a signature one that [sign] made. *)
Definition built_shape (d : pydict) : Prop :=
  exists f address value chain_id nonce fee gas_price,
    d = assembled f address value chain_id nonce fee gas_price.

Definition signature_shape (s : pydict) : Prop :=
  exists signed, s = signature_dict signed.

(** The invariant of a transaction object: [b] tells whether a build has
    succeeded. *)
Definition inv (b : bool) (t : Transaction) : Prop :=
  match _signature t with
  | Some s => signature_shape s
  | None => True
  end /\
  if b then
    exists d fee ty,
      _transaction t = Some d /\ built_shape d /\
      _fee t = Some fee /\ _type t = Some ty
  else _transaction t = None.

End Computed.

Definition address_of (a : BuildArgs) : string :=
  match a with
  | FundArgs address _ _ => address
  | WithdrawArgs _ address _ _ => address
  | RefundArgs _ address _ => address
  end.

(** The dict of the last [estimateGas] request served. *)
Definition estimate_request (l : list Request) : option pydict :=
  fold_left (fun acc r => match r with EstimateGas _ t => Some t | _ => acc end)
    l None.

(** The nonce the fee was estimated with, and the nonce of the stored
    transaction. *)
Definition estimation_nonce (st : State) : option pyval :=
  match estimate_request (served st) with
  | Some t => dict_get "nonce" t
  | None => None
  end.

Definition assembled_nonce (t : Transaction) : option pyval :=
  match _transaction t with
  | Some d => dict_get "nonce" d
  | None => None
  end.

Definition gas_of (t : Transaction) : option pyval :=
  match _transaction t with
  | Some d => dict_get "gas" d
  | None => None
  end.

(** Two objects with the same stored fields, whatever node they talk to. *)
Definition same_fields (t1 t2 : Transaction) : Prop :=
  _network t1 = _network t2 /\ _transaction t1 = _transaction t2 /\
  _signature t1 = _signature t2 /\ _type t1 = _type t2 /\ _fee t1 = _fee t2.

(** The signed raw by way of the builder object, and by way of the facade
    from the unsigned raw. *)
Definition signed_raw_by_builder (E : Env) (r : Role) (solver : pyobject)
    (t : Transaction) : result string :=
  match sign_as E r solver t with
  | (Ok _, t') => TransactionClass.transaction_raw t'
  | (Raise e, _) => Raise e
  end.

Definition signed_raw_by_facade (E : Env) (r : Role) (solver : pyobject)
    (t : Transaction) : result string :=
  and_then (TransactionClass.transaction_raw t) (fun unsigned_raw =>
  and_then (Signature.sign_role E r unsigned_raw solver)
    TransactionClass.transaction_raw).

Definition signed_raw_by_dispatch (E : Env) (solver : pyobject)
    (t : Transaction) : result string :=
  and_then (TransactionClass.transaction_raw t) (fun unsigned_raw =>
  and_then (Signature.sign E unsigned_raw solver)
    TransactionClass.transaction_raw).

(** ** Statements about the object, as predicates *)

(** Within one [build_transaction], fee estimation and assembly use the same
    nonce. *)
Definition same_snapshot (E : Env) (a : BuildArgs) (st : State) : Prop :=
  forall st',
    build_transaction_as E a st = (Ok tt, st') ->
    estimation_nonce st' = assembled_nonce (self st').

(** The object [t0] of role [r] some calls later: any sequence of
    [build_transaction] and [sign] calls on it, failed ones included. *)
Inductive reachable (E : Env) (r : Role) (t0 : Transaction) : Transaction -> Prop :=
| reachable_refl : reachable E r t0 t0
| reachable_build : forall t a w res st,
    reachable E r t0 t ->
    role_of a = r ->
    build_transaction_as E a {| self := t; served := w |} = (res, st) ->
    reachable E r t0 (self st)
| reachable_sign : forall t solver res t',
    reachable E r t0 t ->
    sign_as E r solver t = (res, t') ->
    reachable E r t0 t'.


(** An accessor returned a value, not [None]. *)
Definition populated (r : result pyval) : Prop := r <> Ok PNone.

(** No accessor of a built transaction returns [None]. *)
Definition accessors_populated (E : Env) (r : Role) (t : Transaction) : Prop :=
  history E r true t ->
  populated (TransactionClass.hash t) /\
  populated (TransactionClass.json t) /\
  populated (TransactionClass.raw t) /\
  populated (TransactionClass.type t) /\
  populated (TransactionClass.signature t).

(** [sign] on an object that was never built fails with the error of the
    accessors. *)
Definition sign_requires_build (E : Env) (r : Role) (solver : pyobject)
    (t : Transaction) : Prop :=
  history E r false t ->
  fst (sign_as E r solver t) = Raise not_built.

(** ** A concrete environment, for examples

    Stand-ins for the collaborators: a node that answers every request, a
    signer that is deterministic, depends on the key and on the transaction
    and refuses a key that is not the sender's, and the constants of the
    docstrings. *)

Module Demo.

Definition sender : string := "xdc69e04fe16c9A6A83076B3c2dc4b4Bc21b5d9A20C".

Definition recipient : string := "xdcd77E0d2Eef905cfB39c3C4b952Ed278d58f96E1f".

Definition funding_hash : string :=
  "0xe49ff507739f8d916ae2c9fd51dd63764658ffa42a5288a49d93bc70a933edc4".

Definition xprivate_key : string :=
  "xprv9s21ZrQH143K3Y3pdbkbjreZQ9RVmqTLhRgf86uZyCJk2ou36YdUJt5frjwihGWmV1fQEDioiGZXWXUbHLy3kQf5xmhvhp8dZ2tfn6tgGUj".

Definition well_formed (a : string) : bool :=
  Nat.eqb (String.length a) 43 && String.prefix "xdc" a.

Definition checksum (a prefix : string) : string :=
  prefix ++ String.substring 3 40 a.

Definition str (z : Z) : string := NilZero.string_of_int (Z.to_int z).

Definition BIP44 (account change address : Z) : string :=
  "m/44'/550'/" ++ str account ++ "'/" ++ str change ++ "/" ++ str address.

Definition htlc : HTLC :=
  {| agreements :=
       Some {| secret_hash :=
                 "3a26da82ead15a80533a02696656b14b5dbfd84eb14790f2e1be5e9e45820eeb";
               recipient_address := checksum recipient "0x";
               sender_address := checksum sender "0x";
               endtime := 1624129000 |};
     htlc_contract_address := "0xeaEaC81da5E386E8Ca4De1e64d40a10E468A5b40";
     htlc_abi := "[...]" |}.

(** The node when the account has sent [count] transactions. *)
Definition node (count : Z) : Node :=
  {| get_transaction_count := fun _ => Ok count;
     gasPrice := Ok 20000000000%Z;
     chainId := Ok 1337%Z;
     estimateGas := fun _ _ => Ok 138448%Z;
     get_transaction_receipt := fun _ => Ok {| logs := ["log_fund"] |};
     get_htlc := fun _ _ => Ok htlc |}.

(** A quiet chain, and one on which a transaction of the account is mined
    between any two requests. *)
Definition quiet_chain (_ : Web3) (_ : nat) : Node := node 1.

Definition busy_chain (_ : Web3) (i : nat) : Node := node (Z.of_nat i).

(** The keys of the wallet: the sender's at address index 0, the
    recipient's at index 1.  A key stands for the account whose address is
    "0x" and the key, so that no two keys have the same account. *)
Definition derive (xprivate_key path : string) : string :=
  if String.eqb path (BIP44 0 0 0) then String.substring 3 40 sender
  else if String.eqb path (BIP44 0 0 1) then String.substring 3 40 recipient
  else xprivate_key ++ ":" ++ path.

Definition account (key : string) : string := "0x" ++ key.

Definition signed_with (d : pydict) (key : string) : SignedTransaction :=
  {| st_rawTransaction := Utf8.encode (Json.dumps (PDict d));
     st_hash := (T key ++ Json.dumps (PDict d))%list;
     st_r := Z.of_nat (String.length key);
     st_s := Z.of_nat (List.length (Json.dumps (PDict d)));
     st_v := 2709 |}.

(** The signer accepts a "from" field only when it is the account of the
    key, as the signing library does. *)
Definition signer (d : pydict) (key : string) : result SignedTransaction :=
  match dict_get "from" d with
  | None => Ok (signed_with d key)
  | Some (PStr a) =>
      if String.eqb a (account key) then Ok (signed_with d key)
      else Raise (TypeError ("from field must match key's " ++ account key ++
                             ", but it was " ++ a))
  | Some _ =>
      Raise (TypeError ("from field must match key's " ++ account key))
  end.

Definition selector (f : Call) : string :=
  match f with
  | fund _ _ _ _ _ => "0xf4fd3062"
  | withdraw _ _ _ => "0x06a53665"
  | refund _ _ => "0x7249fbb6"
  end.

Definition env (chain : Web3 -> nat -> Node) : Env :=
  {| config_network := "mainnet";
     config_provider := "http";
     config_unit := "Wei";
     config_BIP44 := BIP44;
     is_network := fun n => String.eqb n "mainnet" || String.eqb n "testnet";
     is_address := well_formed;
     to_checksum_address := checksum;
     amount := Z;
     amount_unit_converter := fun f _ =>
       match f with
       | Some z => Ok z
       | None => Raise (TypeError "unsupported operand")
       end;
     hd_private_key := derive;
     ecdsa := signer;
     encodeABI := selector;
     processLog := fun _ _ => Ok "0x1a2b3c";
     chain := chain |}.

Definition quiet : Env := env quiet_chain.

Definition busy : Env := env busy_chain.

(** A fresh object on mainnet, and the state before its first request. *)
Definition fresh : Transaction :=
  {| _network := "mainnet";
     web3 := {| web3_network := "mainnet"; web3_provider := "http" |};
     _transaction := None; _signature := None; _type := None; _fee := None |}.

Definition start : State := {| self := fresh; served := [] |}.

Definition fund_args : BuildArgs := FundArgs sender (HTLCObject htlc) 100000000.

Definition refund_args : BuildArgs := RefundArgs funding_hash sender None.

Definition withdraw_args : BuildArgs :=
  WithdrawArgs funding_hash recipient "Hello Meheret!" None.

(** The object after [build_transaction], on either chain. *)
Definition built (E : Env) (a : BuildArgs) : Transaction :=
  self (snd (build_transaction_as E a start)).

Definition solver_of (r : Role) (address : Z) : pyobject :=
  SolverObject r (SolverClass.init quiet xprivate_key 0 false address None).

End Demo.

(** ** More names for what the builders compute *)

(** The value sent with the call: the amount for a fund, nothing for a
    withdraw or a refund. *)
Definition value_of (a : BuildArgs) : Z :=
  match a with
  | FundArgs _ _ amount => amount
  | WithdrawArgs _ _ _ _ => 0
  | RefundArgs _ _ _ => 0
  end.

Definition contract_of (h : HTLC) : Contract :=
  {| contract_address := htlc_contract_address h;
     contract_abi := htlc_abi h |}.

(** The requests a builder makes before the shared tail. *)
Definition prologue_requests (a : BuildArgs) (network : string) : list Request :=
  match a with
  | FundArgs _ _ _ => []
  | WithdrawArgs transaction_hash _ _ htlc_transaction_hash =>
      [GetHTLC htlc_transaction_hash network; GetTransactionReceipt transaction_hash]
  | RefundArgs transaction_hash _ htlc_transaction_hash =>
      [GetHTLC htlc_transaction_hash network; GetTransactionReceipt transaction_hash]
  end.

Definition after_prologue (a : BuildArgs) (st : State) : State :=
  {| self := self st;
     served := (served st ++ prologue_requests a (_network (self st)))%list |}.

(** The six requests of the shared tail. *)
Definition tail_requests (E : Env) (f : Call) (address : string)
    (value nonce1 price1 fee nonce2 price2 : Z) : list Request :=
  let sender := to_checksum_address E address "0x" in
  [GetTransactionCount sender; GasPrice;
   EstimateGas f (estimated E address value nonce1 price1);
   GetTransactionCount sender; GasPrice;
   BuildTransaction f
     [("from", PStr sender); ("value", PInt value); ("nonce", PInt nonce2);
      ("gas", PInt fee); ("gasPrice", PInt price2)]].

(** The arguments pass the checks of the builder and resolve to the contract
    call [f]: for a fund, the HTLC is built and the address is its sender;
    for a withdraw and a refund, the HTLC is found, and the first log of the
    receipt of the funding transaction gives the locked contract id. *)
Definition call_resolved (E : Env) (a : BuildArgs) (st : State) (f : Call) : Prop :=
  let node0 := chain E (web3 (self st)) (List.length (served st)) in
  let node1 := chain E (web3 (self st)) (S (List.length (served st))) in
  match a with
  | FundArgs address htlc amount =>
      exists h ag,
        htlc = HTLCObject h /\ is_address E address = true /\
        agreements h = Some ag /\
        to_checksum_address E address "0x" = sender_address ag /\
        f = fund (contract_of h) (secret_hash ag) (recipient_address ag)
              (sender_address ag) (endtime ag)
  | WithdrawArgs transaction_hash address secret_key htlc_transaction_hash =>
      exists h rc log ls id,
        is_address E address = true /\
        get_htlc node0 htlc_transaction_hash (_network (self st)) = Ok h /\
        get_transaction_receipt node1 transaction_hash = Ok rc /\
        logs rc = log :: ls /\
        processLog E (contract_of h) log = Ok id /\
        f = withdraw (contract_of h) id secret_key
  | RefundArgs transaction_hash address htlc_transaction_hash =>
      exists h rc log ls id,
        is_address E address = true /\
        get_htlc node0 htlc_transaction_hash (_network (self st)) = Ok h /\
        get_transaction_receipt node1 transaction_hash = Ok rc /\
        logs rc = log :: ls /\
        processLog E (contract_of h) log = Ok id /\
        f = refund (contract_of h) id
  end.

(** More of the example: a node whose receipts carry no log, a node that
    refuses every estimate, and a fund that is signed, built again and signed
    again. *)
Module DemoMore.

(** A node whose receipts carry no log. *)

Definition bare_node : Node :=
  {| get_transaction_count := fun _ => Ok 1%Z;
     gasPrice := Ok 20000000000%Z;
     chainId := Ok 1337%Z;
     estimateGas := fun _ _ => Ok 138448%Z;
     get_transaction_receipt := fun _ => Ok {| logs := [] |};
     get_htlc := fun _ _ => Ok Demo.htlc |}.

Definition bare : Env := Demo.env (fun _ _ => bare_node).

(** A node that refuses every estimate. *)
Definition refusing_node : Node :=
  {| get_transaction_count := fun _ => Ok 1%Z;
     gasPrice := Ok 20000000000%Z;
     chainId := Ok 1337%Z;
     estimateGas := fun _ _ => Raise (ProviderError "execution reverted");
     get_transaction_receipt := fun _ => Ok {| logs := ["log_fund"] |};
     get_htlc := fun _ _ => Ok Demo.htlc |}.

Definition refusing : Env := Demo.env (fun _ _ => refusing_node).

(** The fund of the examples, signed. *)
Definition signed_fund : Transaction :=
  snd (sign_as Demo.quiet Fund (Demo.solver_of Fund 0)
         (Demo.built Demo.quiet Demo.fund_args)).




End DemoMore.

(* ================================================================= *)
(** * Part II: properties *)
(* ================================================================= *)

Open Scope list_scope.

(** ** Dicts *)

Lemma dict_set_fresh k v d :
  ~ In k (map fst d) -> dict_set k v d = (d ++ [(k, v)])%list.
Proof.
  induction d as [|[k' v'] d IH]; simpl; intros Hk; [reflexivity|].
  destruct (String.eqb_spec k k') as [->|_].
  - exfalso. apply Hk. now left.
  - rewrite IH; [reflexivity|]. intros Hin. apply Hk. now right.
Qed.

Lemma dict_of_pairs_acc l : forall acc,
  NoDup (map fst (acc ++ l)) ->
  fold_left (fun d kv => dict_set (fst kv) (snd kv) d) l acc = (acc ++ l)%list.
Proof.
  induction l as [|[k v] l IH]; intros acc Hnd; simpl.
  - now rewrite app_nil_r.
  - rewrite dict_set_fresh.
    + rewrite IH; rewrite <- app_assoc; [reflexivity|exact Hnd].
    + rewrite map_app in Hnd. simpl in Hnd.
      apply NoDup_remove_2 in Hnd.
      intros Hin. apply Hnd. apply in_or_app. now left.
Qed.

Lemma dict_of_pairs_nodup l :
  NoDup (map fst l) -> dict_of_pairs l = l.
Proof.
  intros Hnd. unfold dict_of_pairs. now rewrite dict_of_pairs_acc.
Qed.

Lemma wf_val_dict d :
  wf_val (PDict d) <-> NoDup (map fst d) /\ wf_items d.
Proof.
  reflexivity.
Qed.

Lemma size_dict d : size (PDict d) = S (size_items d).
Proof.
  reflexivity.
Qed.

Lemma pyval_induction (P : pyval -> Prop) :
  P PNone ->
  (forall z, P (PInt z)) ->
  (forall s, P (PStr s)) ->
  (forall d, Forall (fun kv => P (snd kv)) d -> P (PDict d)) ->
  forall v, P v.
Proof.
  intros HN HI HS HD.
  fix IH 1.
  intros [|z|s|d]; [exact HN|apply HI|apply HS|].
  apply HD.
  induction d as [|[k x] d IHd]; constructor; [apply IH|exact IHd].
Qed.

(** ** JSON: [loads] reads back what [dumps] writes *)

Module JsonFacts.
Import Json.

Lemma dumps_dict d :
  dumps (PDict d) = ("{"%char :: dumps_items d ++ ["}"%char])%list.
Proof.
  reflexivity.
Qed.

Lemma scanstring_escape_char c t :
  scanstring (escape_char c ++ t) = cons_fst c (scanstring t).
Proof.
  destruct c as [[] [] [] [] [] [] [] []]; reflexivity.
Qed.

Lemma scanstring_escape s rest :
  scanstring (escape s ++ Chr.quote :: rest) = Some (s, rest).
Proof.
  induction s as [|c s IH]; simpl.
  - reflexivity.
  - rewrite <- app_assoc, scanstring_escape_char, IH. reflexivity.
Qed.

Lemma scanstring_encode_str k rest :
  exists body,
    (encode_str k ++ rest)%list = Chr.quote :: body /\
    scanstring body = Some (T k, rest).
Proof.
  exists (escape (T k) ++ Chr.quote :: rest)%list. split.
  - unfold encode_str. simpl. now rewrite <- app_assoc.
  - apply scanstring_escape.
Qed.

(** Integer literals *)

Lemma uint_chars d :
  Forall (fun c => Chr.is_num c = true) (T (NilEmpty.string_of_uint d)).
Proof.
  induction d; simpl; constructor; auto.
Qed.

Lemma encode_int_chars z :
  Forall (fun c => Chr.is_num c = true) (encode_int z).
Proof.
  unfold encode_int.
  destruct (Z.to_int z) as [d|d]; simpl.
  - destruct d; try apply (uint_chars (_ _)). repeat constructor.
  - constructor; [reflexivity|].
    destruct d; try apply (uint_chars (_ _)). repeat constructor.
Qed.

Lemma encode_int_nonempty z : encode_int z <> [].
Proof.
  unfold encode_int.
  destruct z as [|p|p]; simpl; try discriminate.
  pose proof (Unsigned.to_uint_nonnil p) as Hn.
  destruct (Pos.to_uint p); simpl; congruence || discriminate.
Qed.

Lemma span_num_app lit rest :
  Forall (fun c => Chr.is_num c = true) lit ->
  follow_ok rest ->
  span_num (lit ++ rest) = (lit, rest).
Proof.
  induction 1 as [|c lit Hc _ IH]; intros Hrest; cbn [app span_num].
  - destruct rest as [|c rest]; [reflexivity|].
    cbn [follow_ok] in Hrest. cbn [span_num]. now rewrite Hrest.
  - rewrite Hc, (IH Hrest). reflexivity.
Qed.

Lemma text_eqb_refl a : text_eqb a a = true.
Proof.
  induction a as [|c a IH]; simpl; [reflexivity|].
  now rewrite Ascii.eqb_refl, IH.
Qed.

Lemma int_of_string_encode z :
  NilZero.int_of_string (string_of_list_ascii (encode_int z)) = Some (Z.to_int z).
Proof.
  unfold encode_int, T. rewrite string_of_list_ascii_of_string.
  apply NilZero.isi.
  - destruct z as [|p|p]; simpl; try discriminate.
    intros [= H]. now apply (Unsigned.to_uint_nonnil p).
  - destruct z as [|p|p]; simpl; try discriminate.
    intros [= H]. now apply (Unsigned.to_uint_nonnil p).
Qed.

Lemma scan_int_encode z rest :
  follow_ok rest ->
  scan_int (encode_int z ++ rest) = Some (z, rest).
Proof.
  intros Hrest. unfold scan_int.
  rewrite (span_num_app _ _ (encode_int_chars z) Hrest).
  rewrite int_of_string_encode, DecimalZ.of_to, text_eqb_refl.
  reflexivity.
Qed.

(** The first character of an integer literal. *)
Lemma encode_int_head z :
  exists c s, encode_int z = c :: s /\ Chr.is_num c = true.
Proof.
  pose proof (encode_int_chars z) as Hc.
  pose proof (encode_int_nonempty z) as Hn.
  destruct (encode_int z) as [|c s]; [congruence|].
  exists c, s. split; [reflexivity|]. now inversion Hc.
Qed.

Lemma is_num_cases c :
  Chr.is_num c = true ->
  Ascii.eqb c Chr.quote = false /\ Ascii.eqb c "{" = false /\
  Ascii.eqb c "n" = false /\ Chr.is_ws c = false.
Proof.
  destruct c as [[] [] [] [] [] [] [] []]; cbv; intuition congruence.
Qed.

(** White space *)

Lemma skip_ws_head c s : Chr.is_ws c = false -> skip_ws (c :: s) = c :: s.
Proof.
  intros H. simpl. now rewrite H.
Qed.

Lemma dumps_head v rest :
  exists c s, dumps v ++ rest = c :: s /\ Chr.is_ws c = false.
Proof.
  destruct v as [|z|s|d].
  - now exists "n"%char, (T "ull" ++ rest).
  - cbn [dumps]. destruct (encode_int_head z) as (c & s & -> & Hc).
    exists c, (s ++ rest). split; [reflexivity|].
    now apply is_num_cases in Hc.
  - now exists Chr.quote, ((escape (T s) ++ [Chr.quote]) ++ rest).
  - rewrite dumps_dict. now exists "{"%char, ((dumps_items d ++ ["}"%char]) ++ rest).
Qed.

Lemma skip_ws_dumps v rest : skip_ws (dumps v ++ rest) = dumps v ++ rest.
Proof.
  destruct (dumps_head v rest) as (c & s & -> & Hc).
  now apply skip_ws_head.
Qed.

(** The scanner on a printed value, with enough fuel and a rest that does not
    continue an integer literal. *)
Lemma scan_once_dumps : forall v,
  wf_val v ->
  forall fuel rest,
    size v <= fuel -> follow_ok rest ->
    scan_once fuel (dumps v ++ rest) = Some (v, rest).
Proof.
  induction v as [| z | s | d IHd] using pyval_induction;
    intros Hwf fuel rest Hfuel Hrest.
  - destruct fuel as [|fuel]; [simpl in Hfuel; lia|]. reflexivity.
  - destruct fuel as [|fuel]; [simpl in Hfuel; lia|].
    destruct (encode_int_head z) as (c & s & Hz & Hc).
    simpl dumps. cbn [scan_once].
    rewrite Hz. cbn [app].
    apply is_num_cases in Hc. destruct Hc as (H1 & H2 & H3 & _).
    rewrite H1, H2, H3.
    change (c :: s ++ rest) with ((c :: s) ++ rest). rewrite <- Hz.
    now rewrite scan_int_encode.
  - destruct fuel as [|fuel]; [simpl in Hfuel; lia|].
    simpl dumps. unfold encode_str. cbn [scan_once app].
    rewrite Ascii.eqb_refl, <- app_assoc. cbn [app].
    rewrite scanstring_escape. unfold T.
    now rewrite string_of_list_ascii_of_string.
  - destruct fuel as [|fuel]; [simpl in Hfuel; lia|].
    rewrite size_dict in Hfuel. apply le_S_n in Hfuel.
    apply wf_val_dict in Hwf. destruct Hwf as [Hnd Hwf].
    rewrite dumps_dict. cbn [scan_once app].
    change (Ascii.eqb "{" Chr.quote) with false.
    rewrite Ascii.eqb_refl. cbv iota.
    rewrite <- app_assoc. cbn [app].
    destruct d as [|[k x] d].
    + reflexivity.
    + assert (Hpairs : forall l f,
        Forall (fun kv => forall (_ : wf_val (snd kv)) fuel rest,
                  size (snd kv) <= fuel -> follow_ok rest ->
                  scan_once fuel (dumps (snd kv) ++ rest) = Some (snd kv, rest)) l ->
        wf_items l -> l <> [] -> size_items l <= f ->
        scan_pairs f (dumps_items l ++ "}"%char :: rest) = Some (l, rest)).
      { clear. induction l as [|[k x] l IHl]; intros f HF Hwf Hne Hf;
          [congruence|].
        destruct f as [|f]; [simpl in Hf; lia|].
        simpl in Hf. apply le_S_n in Hf.
        inversion HF as [|? ? Hx HFl]; subst. simpl in Hx.
        destruct Hwf as [Hwx Hwl].
        cbn [dumps_items]. unfold encode_str at 1.
        repeat rewrite <- app_assoc. cbn [app scan_pairs].
        rewrite Ascii.eqb_refl.
        rewrite <- (app_assoc (escape (T k))). cbn [app].
        rewrite scanstring_escape. cbn [T list_ascii_of_string app skip_ws].
        change (Chr.is_ws ":") with false. cbv iota.
        rewrite Ascii.eqb_refl.
        change (skip_ws (" "%char :: ?s)) with (skip_ws s).
        rewrite skip_ws_dumps.
        destruct l as [|e l].
        - cbn [app]. rewrite Hx; [|exact Hwx|lia|reflexivity].
          cbn [skip_ws]. change (Chr.is_ws "}") with false. cbv iota.
          rewrite Ascii.eqb_refl. unfold T.
          now rewrite string_of_list_ascii_of_string.
        - repeat rewrite <- app_assoc. cbn [app].
          rewrite Hx; [|exact Hwx|lia|reflexivity].
          cbn [skip_ws]. change (Chr.is_ws ",") with false. cbv iota.
          change (Ascii.eqb "," "}") with false.
          rewrite Ascii.eqb_refl. cbv iota.
          change (skip_ws (" "%char :: ?s)) with (skip_ws s).
          assert (Hq : exists body, dumps_items (e :: l) ++ "}"%char :: rest
                                    = Chr.quote :: body).
          { destruct e as [k' x']. cbn [dumps_items]. unfold encode_str.
            cbn [app]. eauto. }
          destruct Hq as [body Hq]. rewrite Hq.
          rewrite skip_ws_head by reflexivity. rewrite <- Hq.
          rewrite IHl; [|exact HFl|exact Hwl|discriminate|lia].
          unfold T. now rewrite string_of_list_ascii_of_string. }
      assert (Hq : exists body,
                 dumps_items ((k, x) :: d) ++ "}"%char :: rest = Chr.quote :: body).
      { cbn [dumps_items]. unfold encode_str. cbn [app]. eauto. }
      destruct Hq as [body Hq]. rewrite Hq.
      rewrite skip_ws_head by reflexivity.
      change (Ascii.eqb Chr.quote "}") with false. cbv iota.
      rewrite <- Hq.
      rewrite Hpairs; [|exact IHd|exact Hwf|discriminate|exact Hfuel].
      now rewrite dict_of_pairs_nodup.
Qed.

Lemma escape_length s : List.length s <= List.length (escape s).
Proof.
  induction s as [|c s IH]; simpl; [lia|].
  rewrite length_app.
  assert (1 <= List.length (escape_char c)).
  { unfold escape_char.
    repeat match goal with |- context [if ?b then _ else _] => destruct b end;
      simpl; lia. }
  lia.
Qed.

Lemma size_le_dumps : forall v, size v <= List.length (dumps v).
Proof.
  induction v as [| z | s | d IHd] using pyval_induction.
  - simpl. lia.
  - cbn [dumps size]. destruct (encode_int_head z) as (c & s & -> & _).
    simpl. lia.
  - simpl. lia.
  - rewrite size_dict, dumps_dict. simpl. rewrite length_app. simpl.
    enough (size_items d <= List.length (dumps_items d)) by lia.
    induction IHd as [|[k x] d Hx _ IH]; simpl; [lia|].
    simpl in Hx. repeat rewrite length_app. simpl.
    destruct d as [|e d]; simpl in *; repeat rewrite length_app; simpl; lia.
Qed.

(** [json.loads(json.dumps(v)) == v] for every value a Python program can
    hold. *)
Lemma loads_dumps v : wf_val v -> loads (dumps v) = Some v.
Proof.
  intros Hwf. unfold loads.
  pose proof (skip_ws_dumps v []) as Hs. rewrite app_nil_r in Hs. rewrite Hs.
  pose proof (scan_once_dumps v Hwf (S (List.length (dumps v))) []) as H.
  rewrite app_nil_r in H. rewrite H; [reflexivity| |exact I].
  pose proof (size_le_dumps v). lia.
Qed.

End JsonFacts.

(** ** UTF-8 and base64: decoding reads back what encoding writes *)

Ltac n_div_mod := intros; zify; Z.to_euclidean_division_equations; lia.

Lemma list_ind3 (A : Type) (P : list A -> Prop) :
  P [] ->
  (forall x, P [x]) ->
  (forall x y, P [x; y]) ->
  (forall x y z l, P l -> P (x :: y :: z :: l)) ->
  forall l, P l.
Proof.
  intros H0 H1 H2 H3.
  fix IH 1.
  intros [|x [|y [|z l]]]; [exact H0|apply H1|apply H2|].
  apply H3, IH.
Qed.

Module Utf8Facts.
Import Utf8.

Lemma decode_encode_char c t :
  decode (encode_char c ++ t) = cons_opt c (decode t).
Proof.
  destruct c as [[] [] [] [] [] [] [] []]; reflexivity.
Qed.

Lemma decode_encode s : decode (encode s) = Some s.
Proof.
  induction s as [|c s IH]; simpl; [reflexivity|].
  now rewrite decode_encode_char, IH.
Qed.

End Utf8Facts.

Module Base64Facts.
Import Base64.

Lemma code_bound x : (Chr.code x < 256)%N.
Proof.
  apply N_ascii_bounded.
Qed.

Lemma value_digit n : (n < 64)%N -> value (digit n) = Some n.
Proof.
  intros H. rewrite <- (N2Nat.id n).
  assert (Hk : N.to_nat n < 64) by lia.
  revert Hk. generalize (N.to_nat n). clear. intros k Hk.
  do 64 (destruct k as [|k]; [reflexivity|]). lia.
Qed.

Lemma digit_not_pad n : (n < 64)%N -> Ascii.eqb (digit n) pad = false.
Proof.
  intros H. rewrite <- (N2Nat.id n).
  assert (Hk : N.to_nat n < 64) by lia.
  revert Hk. generalize (N.to_nat n). clear. intros k Hk.
  do 64 (destruct k as [|k]; [reflexivity|]). lia.
Qed.

Lemma value_pad : value pad = None.
Proof.
  reflexivity.
Qed.

Lemma b64decode_group a b c d s p q r t :
  value a = Some p -> value b = Some q -> value c = Some r ->
  value d = Some t -> Ascii.eqb d pad = false ->
  b64decode (a :: b :: c :: d :: s) =
  app_opt [ascii_of_N (p * 4 + q / 16); ascii_of_N (q mod 16 * 16 + r / 4);
           ascii_of_N (r mod 4 * 64 + t)] (b64decode s).
Proof.
  intros Ha Hb Hc Hd Hp. cbn [b64decode].
  now rewrite Ha, Hb, Hc, Hd, Hp.
Qed.

Lemma b64decode_last2 a b c p q r :
  value a = Some p -> value b = Some q -> value c = Some r ->
  Ascii.eqb c pad = false ->
  b64decode [a; b; c; pad] =
  Some [ascii_of_N (p * 4 + q / 16); ascii_of_N (q mod 16 * 16 + r / 4)].
Proof.
  intros Ha Hb Hc Hp. cbn [b64decode].
  now rewrite Ha, Hb, Hc, Hp, Ascii.eqb_refl.
Qed.

Lemma b64decode_last1 a b p q :
  value a = Some p -> value b = Some q ->
  b64decode [a; b; pad; pad] = Some [ascii_of_N (p * 4 + q / 16)].
Proof.
  intros Ha Hb. cbn [b64decode].
  now rewrite Ha, Hb, Ascii.eqb_refl.
Qed.

Lemma byte_of_code x n : n = Chr.code x -> ascii_of_N n = x.
Proof.
  intros ->. apply ascii_N_embedding.
Qed.

Lemma b64decode_b64encode : forall b, b64decode (b64encode b) = Some b.
Proof.
  induction b as [|x|x y|x y z b IH] using list_ind3.
  - reflexivity.
  - pose proof (code_bound x) as Hx. cbn [b64encode].
    erewrite b64decode_last1 by (apply value_digit; n_div_mod).
    now erewrite (byte_of_code x) by n_div_mod.
  - pose proof (code_bound x) as Hx. pose proof (code_bound y) as Hy.
    cbn [b64encode].
    erewrite b64decode_last2
      by (first [apply value_digit | apply digit_not_pad]; n_div_mod).
    erewrite (byte_of_code x) by n_div_mod.
    now erewrite (byte_of_code y) by n_div_mod.
  - pose proof (code_bound x) as Hx. pose proof (code_bound y) as Hy.
    pose proof (code_bound z) as Hz.
    cbn [b64encode].
    erewrite b64decode_group
      by (first [apply value_digit | apply digit_not_pad]; n_div_mod).
    rewrite IH. cbn [app_opt app].
    erewrite (byte_of_code x) by n_div_mod.
    erewrite (byte_of_code y) by n_div_mod.
    now erewrite (byte_of_code z) by n_div_mod.
Qed.

(** The shape of a base64 text: digits, then at most two pads, a multiple of
    four characters in all. *)
Lemma b64encode_shape : forall b,
  exists body k,
    b64encode b = body ++ repeat pad k /\
    Forall (fun c => Ascii.eqb c pad = false) body /\
    k <= 2 /\ (List.length body + k) mod 4 = 0.
Proof.
  induction b as [|x|x y|x y z b IH] using list_ind3.
  - exists [], 0. repeat split; [constructor|lia].
  - pose proof (code_bound x) as Hx.
    exists [digit (Chr.code x / 4); digit (Chr.code x mod 4 * 16)], 2.
    repeat split; [|lia].
    repeat constructor; apply digit_not_pad; n_div_mod.
  - pose proof (code_bound x) as Hx. pose proof (code_bound y) as Hy.
    exists [digit (Chr.code x / 4);
            digit (Chr.code x mod 4 * 16 + Chr.code y / 16);
            digit (Chr.code y mod 16 * 4)], 1.
    repeat split; [|lia].
    repeat constructor; apply digit_not_pad; n_div_mod.
  - pose proof (code_bound x) as Hx. pose proof (code_bound y) as Hy.
    pose proof (code_bound z) as Hz.
    destruct IH as (body & k & Hb & Hbody & Hk & Hlen).
    exists (digit (Chr.code x / 4) ::
            digit (Chr.code x mod 4 * 16 + Chr.code y / 16) ::
            digit (Chr.code y mod 16 * 4 + Chr.code z / 64) ::
            digit (Chr.code z mod 64) :: body), k.
    repeat split.
    + cbn [b64encode]. now rewrite Hb.
    + repeat constructor; try exact Hbody;
        apply digit_not_pad; n_div_mod.
    + exact Hk.
    + cbn [List.length]. revert Hlen. generalize (List.length body).
      intros n Hn.
      replace (S (S (S (S n))) + k) with (n + k + 1 * 4) by lia.
      now rewrite Nat.Div0.mod_add.
Qed.

Lemma rstrip_pad_pads k : rstrip_pad (repeat pad k) = [].
Proof.
  induction k as [|k IH]; simpl; [reflexivity|now rewrite IH].
Qed.

Lemma rstrip_pad_body body k :
  Forall (fun c => Ascii.eqb c pad = false) body ->
  rstrip_pad (body ++ repeat pad k) = body.
Proof.
  induction 1 as [|c body Hc _ IH]; cbn [app rstrip_pad].
  - apply rstrip_pad_pads.
  - rewrite IH, Hc. now destruct body.
Qed.

Lemma pad4_body body k :
  k <= 2 -> (List.length body + k) mod 4 = 0 ->
  pad4 body = body ++ repeat pad k.
Proof.
  intros Hk Hlen. unfold pad4. do 2 f_equal.
  revert Hlen. generalize (List.length body). intros n Hn.
  pose proof (Nat.mod_upper_bound n 4 ltac:(lia)) as Hr.
  rewrite (Nat.div_mod_eq n 4) in Hn.
  replace (4 * (n / 4) + n mod 4 + k) with ((n mod 4 + k) + (n / 4) * 4) in Hn
    by lia.
  rewrite Nat.Div0.mod_add in Hn.
  remember (n mod 4) as r eqn:Heqr. clear Heqr.
  destruct r as [|[|[|[|r]]]]; destruct k as [|[|[|k]]];
    try lia; try discriminate; reflexivity.
Qed.

(** The padding removed by the encoder is restored by the decoder. *)
Lemma pad4_rstrip_b64encode b :
  pad4 (rstrip_pad (b64encode b)) = b64encode b.
Proof.
  destruct (b64encode_shape b) as (body & k & -> & Hbody & Hk & Hlen).
  rewrite rstrip_pad_body by exact Hbody.
  now apply pad4_body.
Qed.

End Base64Facts.

(** ** What [sign] and [build_transaction] do to the object *)

Section ModelFacts.
Variable E : Env.


Lemma sign_wrong_solver r solver t :
  isinstance_solver solver r = false ->
  sign_as E r solver t =
  (Raise (TypeError ("Solver must be XinFin " ++ solver_class_name r ++ ", not " ++
                     type_name_of solver ++ " type.")%string), t).
Proof.
  intros H.
  destruct r, solver as [[] s|h|n]; try discriminate H; reflexivity.
Qed.

Lemma sign_right_solver r s t :
  sign_as E r (SolverObject r s) t =
  match sign_transaction E (_transaction t) (key_of E s) with
  | Ok signed =>
      (Ok tt, set_type (signed_type r) (set_signature (signature_dict signed) t))
  | Raise e => (Raise e, t)
  end.
Proof.
  destruct r; cbn; unfold bind, get, lift, modify, key_of;
    destruct (sign_transaction E (_transaction t) _); reflexivity.
Qed.

Lemma isinstance_solver_true solver r :
  isinstance_solver solver r = true -> exists s, solver = SolverObject r s.
Proof.
  destruct solver as [r' s|h|n]; try discriminate.
  destruct r', r; try discriminate; eauto.
Qed.

(** Every outcome of [sign]. *)
Lemma sign_cases r solver t res t' :
  sign_as E r solver t = (res, t') ->
  (exists e, res = Raise e /\ t' = t) \/
  (exists s signed,
     solver = SolverObject r s /\ res = Ok tt /\
     sign_transaction E (_transaction t) (key_of E s) = Ok signed /\
     t' = set_type (signed_type r) (set_signature (signature_dict signed) t)).
Proof.
  destruct (isinstance_solver solver r) eqn:Hi.
  - apply isinstance_solver_true in Hi. destruct Hi as [s ->].
    rewrite sign_right_solver.
    destruct (sign_transaction E (_transaction t) (key_of E s)) as [signed|e] eqn:Hs;
      intros [= <- <-]; [right|left]; eauto 8.
  - rewrite (sign_wrong_solver _ _ _ Hi). intros [= <- <-]. left. eauto.
Qed.




Lemma length_snoc (A : Type) (l : list A) (x : A) :
  List.length (l ++ [x]) = S (List.length l).
Proof.
  rewrite length_app. simpl. lia.
Qed.

Ltac step_request H :=
  rewrite ?length_snoc in H;
  lazymatch type of H with
  | match (match ?r with Ok _ => _ | Raise _ => _ end)
    with Ok _ => _ | Raise _ => _ end = _ =>
      let x := fresh "x" in
      let e := fresh "e" in
      let Hx := fresh "Hreq" in
      destruct r as [x|e] eqn:Hx
  | match ?r with Ok _ => _ | Raise _ => _ end = _ =>
      let x := fresh "x" in
      let e := fresh "e" in
      let Hx := fresh "Hreq" in
      destruct r as [x|e] eqn:Hx
  end.

Lemma node_at_S st i :
  chain E (web3 (self st)) (i + List.length (served st)) = node_at E st i.
Proof.
  unfold node_at. now rewrite Nat.add_comm.
Qed.

(** A successful run of the shared tail: six requests, in this order, each
    answered by the node as it is at that moment. *)
Lemma estimate_and_build_ok f address value type st st' :
  estimate_and_build E f address value type st = (Ok tt, st') ->
  exists nonce1 price1 fee nonce2 price2 chain_id,
    let sender := to_checksum_address E address "0x" in
    get_transaction_count (node_at E st 0) sender = Ok nonce1 /\
    gasPrice (node_at E st 1) = Ok price1 /\
    estimateGas (node_at E st 2) f (estimated E address value nonce1 price1) = Ok fee /\
    get_transaction_count (node_at E st 3) sender = Ok nonce2 /\
    gasPrice (node_at E st 4) = Ok price2 /\
    chainId (node_at E st 5) = Ok chain_id /\
    self st' =
      set_type type
        (set_transaction (assembled E f address value chain_id nonce2 fee price2)
           (set_fee fee (self st))) /\
    served st' =
      served st ++
      [GetTransactionCount sender; GasPrice;
       EstimateGas f (estimated E address value nonce1 price1);
       GetTransactionCount sender; GasPrice;
       BuildTransaction f
         [("from", PStr sender); ("value", PInt value); ("nonce", PInt nonce2);
          ("gas", PInt fee); ("gasPrice", PInt price2)]].
Proof.
  unfold estimate_and_build, bind, request, on_self, modify, buildTransaction,
    and_then.
  cbn [self served web3 set_fee set_transaction set_type].
  intros H.
  do 6 (step_request H; [|discriminate H]).
  injection H as <-.
  exists x, x0, x1, x2, x3, x4. cbn zeta.
  rewrite <- !node_at_S. cbn [Nat.add].
  repeat split; try assumption.
  cbn [served]. repeat rewrite <- app_assoc. reflexivity.
Qed.

(** A failed run of the shared tail leaves the object as it was, but for the
    fee when the estimate had come back. *)
Lemma estimate_and_build_raise f address value type st e st' :
  estimate_and_build E f address value type st = (Raise e, st') ->
  self st' = self st \/ exists fee, self st' = set_fee fee (self st).
Proof.
  unfold estimate_and_build, bind, request, on_self, modify, buildTransaction,
    and_then.
  cbn [self served web3 set_fee set_transaction set_type].
  intros H.
  repeat (step_request H;
          [|injection H as _ <-; cbn [self]; (now left) || (right; eauto)]).
  discriminate H.
Qed.

(** Every [build_transaction] is a prologue, which changes nothing in the
    object, and then the shared tail. *)
Lemma build_as_tail a st res st' :
  build_transaction_as E a st = (res, st') ->
  (exists e, res = Raise e /\ self st' = self st) \/
  (exists f st0 pre,
     self st0 = self st /\ served st0 = served st ++ pre /\
     estimate_and_build E f (address_of a) 
       (match a with FundArgs _ _ amount => amount | _ => 0%Z end)
       (unsigned_type (role_of a)) st0 = (res, st')).
Proof.
  destruct a as [address htlc amount
                |transaction_hash address secret_key htlc_transaction_hash
                |transaction_hash address htlc_transaction_hash];
    cbv beta iota delta
      [build_transaction_as FundTransaction.build_transaction
       WithdrawTransaction.build_transaction RefundTransaction.build_transaction
       bind lift raise get request locked_contract_id_of agreements_of
       address_of role_of unsigned_type];
    intros H.
  - destruct htlc as [r s|h|n];
      try (injection H as <- <-; left; eauto; fail).
    destruct (is_address E address);
      [|injection H as <- <-; left; eauto]. cbn [negb] in H.
    destruct (agreements h) as [a|];
      [|injection H as <- <-; left; eauto].
    destruct (String.eqb _ _); cbn [negb] in H;
      [|injection H as <- <-; left; eauto].
    right. exists (fund {| contract_address := htlc_contract_address h;
                           contract_abi := htlc_abi h |}
                     (secret_hash a) (recipient_address a) (sender_address a)
                     (endtime a)), st, [].
    rewrite app_nil_r. auto.
  - destruct (is_address E address);
      [|injection H as <- <-; left; eauto]. cbn [negb] in H.
    destruct (get_htlc _ _ _) as [h|e];
      [|injection H as <- <-; left; eauto].
    cbn [self served] in H.
    destruct (get_transaction_receipt _ _) as [rc|e];
      [|injection H as <- <-; left; eauto].
    destruct (logs rc) as [|log ls];
      [injection H as <- <-; left; eauto|].
    destruct (processLog E _ log) as [id|e];
      [|injection H as <- <-; left; eauto].
    right. eexists _, _, _. split; [|split; [|exact H]]; cbn [self served].
    + reflexivity.
    + rewrite <- app_assoc. reflexivity.
  - destruct (is_address E address);
      [|injection H as <- <-; left; eauto]. cbn [negb] in H.
    destruct (get_htlc _ _ _) as [h|e];
      [|injection H as <- <-; left; eauto].
    cbn [self served] in H.
    destruct (get_transaction_receipt _ _) as [rc|e];
      [|injection H as <- <-; left; eauto].
    destruct (logs rc) as [|log ls];
      [injection H as <- <-; left; eauto|].
    destruct (processLog E _ log) as [id|e];
      [|injection H as <- <-; left; eauto].
    right. eexists _, _, _. split; [|split; [|exact H]]; cbn [self served].
    + reflexivity.
    + rewrite <- app_assoc. reflexivity.
Qed.

Lemma build_raise a st e st' :
  build_transaction_as E a st = (Raise e, st') ->
  self st' = self st \/ exists fee, self st' = set_fee fee (self st).
Proof.
  intros H. apply build_as_tail in H.
  destruct H as [(e' & _ & Hs)|(f & st0 & pre & Hs & _ & H)]; [now left|].
  apply estimate_and_build_raise in H. rewrite Hs in H. exact H.
Qed.

Lemma build_ok a st u st' :
  build_transaction_as E a st = (Ok u, st') ->
  exists f value chain_id nonce fee gas_price,
    self st' =
    set_type (unsigned_type (role_of a))
      (set_transaction
         (assembled E f (address_of a) value chain_id nonce fee gas_price)
         (set_fee fee (self st))).
Proof.
  intros H. destruct u. apply build_as_tail in H.
  destruct H as [(e' & He & _)|(f & st0 & pre & Hs & _ & H)]; [discriminate|].
  apply estimate_and_build_ok in H.
  destruct H as (n1 & p1 & fee & n2 & p2 & c & _ & _ & _ & _ & _ & _ & H & _).
  rewrite Hs in H. eauto 10.
Qed.

(** ** The invariant of a transaction object *)

Lemma init_fresh network provider t :
  TransactionClass.init E network provider = Ok t ->
  _transaction t = None /\ _signature t = None /\ _type t = None /\
  _fee t = None /\ _network t = network.
Proof.
  unfold TransactionClass.init. destruct (is_network E network); [|discriminate].
  intros [= <-]. auto.
Qed.

Lemma history_inv r b t : history E r b t -> inv E b t.
Proof.
  induction 1 as [network provider t Hinit
                 |b t a w res st Hh IH Hr Hb
                 |b t solver res t' Hh IH Hs].
  - apply init_fresh in Hinit. destruct Hinit as (Ht & Hsg & _).
    unfold inv. now rewrite Hsg, Ht.
  - destruct IH as [Hsig Hb']. destruct res as [u|e]; cbn [is_ok].
    + rewrite orb_true_r. apply build_ok in Hb.
      destruct Hb as (f & v & c & n & fee & p & ->). cbn [self] in *.
      split; [exact Hsig|].
      exists (assembled E f (address_of a) v c n fee p), fee,
        (unsigned_type (role_of a)).
      repeat split. unfold built_shape. eauto 10.
    + rewrite orb_false_r. apply build_raise in Hb. cbn [self] in Hb.
      destruct Hb as [->|[fee ->]]; [now split|].
      split; [exact Hsig|]. destruct b; [|exact Hb'].
      destruct Hb' as (d & fee' & ty & Ht & Hd & _ & Hty).
      exists d, fee, ty. auto.
  - destruct IH as [Hsig Hb]. apply sign_cases in Hs.
    destruct Hs as [(e & _ & ->)|(s & signed & _ & _ & _ & ->)]; [now split|].
    split; [cbn; unfold signature_shape; eauto|].
    destruct b; [|exact Hb].
    destruct Hb as (d & fee & ty & Ht & Hd & Hf & _).
    exists d, fee, (signed_type r). auto.
Qed.

Lemma built_truthy d : built_shape E d -> truthy (Some d) = true.
Proof.
  intros (f & a & v & c & n & fee & p & ->). reflexivity.
Qed.

Lemma built_wf d : built_shape E d -> wf_val (PDict d).
Proof.
  intros (f & a & v & c & n & fee & p & ->).
  apply wf_val_dict. split.
  - cbn. repeat constructor; cbn; intuition discriminate.
  - cbn. tauto.
Qed.

Lemma signature_wf s : signature_shape s -> wf_val (PDict s).
Proof.
  intros (signed & ->).
  apply wf_val_dict. split.
  - cbn. repeat constructor; cbn; intuition discriminate.
  - cbn. tauto.
Qed.

End ModelFacts.

(** ** The raw: decoding reads back the five stored fields *)

Section RawFacts.
Variable E : Env.

Lemma py_int_wf z : wf_val (py_int z).
Proof.
  now destruct z.
Qed.

Lemma py_str_wf s : wf_val (py_str s).
Proof.
  now destruct s.
Qed.

Lemma raw_dict_wf t :
  wf_val (py_dict (_transaction t)) ->
  wf_val (py_dict (_signature t)) ->
  wf_val (PDict (TransactionClass.raw_dict t)).
Proof.
  intros Ht Hs. apply wf_val_dict. split.
  - cbn. repeat constructor; cbn; intuition discriminate.
  - cbn [TransactionClass.raw_dict wf_items].
    pose proof (py_int_wf (_fee t)). pose proof (py_str_wf (_type t)).
    cbn [wf_val]. tauto.
Qed.

(** Decoding the text that [transaction_raw] makes of a dict. *)
Lemma decode_encoded d :
  Base64.b64decode
    (Base64.pad4
       (T (string_of_list_ascii
             (clean_transaction_raw
                (Base64.b64encode (Utf8.encode (Json.dumps (PDict d)))))))) =
  Some (Utf8.encode (Json.dumps (PDict d))).
Proof.
  unfold T, clean_transaction_raw.
  rewrite list_ascii_of_string_of_list_ascii.
  rewrite Base64Facts.pad4_rstrip_b64encode.
  apply Base64Facts.b64decode_b64encode.
Qed.

Lemma decode_transaction_raw_of t :
  truthy (_transaction t) = true ->
  wf_val (py_dict (_transaction t)) ->
  wf_val (py_dict (_signature t)) ->
  exists unsigned_or_signed_raw,
    TransactionClass.transaction_raw t = Ok unsigned_or_signed_raw /\
    decode_transaction_raw unsigned_or_signed_raw =
    Ok (TransactionClass.raw_dict t).
Proof.
  intros Hb Ht Hs. unfold TransactionClass.transaction_raw.
  rewrite Hb. cbn [negb]. eexists. split; [reflexivity|].
  pose proof (raw_dict_wf t Ht Hs) as Hwf.
  unfold decode_transaction_raw.
  rewrite decode_encoded, Utf8Facts.decode_encode.
  rewrite (JsonFacts.loads_dumps _ Hwf).
  reflexivity.
Qed.

Lemma inv_raw_ready t :
  inv E true t ->
  truthy (_transaction t) = true /\
  wf_val (py_dict (_transaction t)) /\ wf_val (py_dict (_signature t)).
Proof.
  intros [Hsig (d & fee & ty & Ht & Hd & _)].
  rewrite Ht. split; [now apply (built_truthy E)|].
  split; [now apply (built_wf E)|].
  destruct (_signature t) as [s|]; [now apply signature_wf|exact I].
Qed.

(** [sign] and [transaction_raw] look at the stored fields only. *)
Lemma sign_same_fields r solver t1 t2 :
  same_fields t1 t2 ->
  fst (sign_as E r solver t1) = fst (sign_as E r solver t2) /\
  same_fields (snd (sign_as E r solver t1)) (snd (sign_as E r solver t2)).
Proof.
  intros (Hn & Ht & Hs & Hty & Hf).
  destruct (isinstance_solver solver r) eqn:Hi.
  - apply isinstance_solver_true in Hi. destruct Hi as [s ->].
    rewrite !sign_right_solver, Ht.
    destruct (sign_transaction E (_transaction t2) (key_of E s)); cbn;
      repeat split; assumption.
  - rewrite !(sign_wrong_solver E _ _ _ Hi). cbn. repeat split; assumption.
Qed.

Lemma transaction_raw_same_fields t1 t2 :
  same_fields t1 t2 ->
  TransactionClass.transaction_raw t1 = TransactionClass.transaction_raw t2.
Proof.
  intros (Hn & Ht & Hs & Hty & Hf).
  unfold TransactionClass.transaction_raw, TransactionClass.raw_dict.
  now rewrite Hn, Ht, Hs, Hty, Hf.
Qed.

Lemma role_of_unsigned_type r : role_of_type (unsigned_type r) = Some r.
Proof.
  now destruct r.
Qed.

(** What the facade reconstructs from the decoded raw of a built object. *)
Lemma reconstruct_raw_dict t :
  inv E true t ->
  exists t',
    Signature.reconstruct E (TransactionClass.raw_dict t) = Ok t' /\
    same_fields t' t.
Proof.
  intros [_ (d & fee & ty & Ht & _ & Hf & Hty)].
  unfold TransactionClass.raw_dict, Signature.reconstruct.
  rewrite Ht, Hf, Hty. cbn [py_int py_dict py_str].
  destruct (_signature t) as [s|] eqn:Hs; cbn [py_dict];
    eexists; (split; [reflexivity|]);
    unfold same_fields; cbn; rewrite ?Ht, ?Hf, ?Hty, ?Hs; auto.
Qed.

End RawFacts.

(** ** The examples *)

Module DemoFacts.
Import Demo.

Lemma fresh_history r : history quiet r false fresh.
Proof.
  apply (history_init quiet r "mainnet" "http"). reflexivity.
Qed.

Lemma built_history r a :
  role_of a = r ->
  is_ok (fst (build_transaction_as quiet a start)) = true ->
  history quiet r true (built quiet a).
Proof.
  intros Hr Hok.
  destruct (build_transaction_as quiet a start) as [res st] eqn:Hb.
  pose proof (history_build quiet r false fresh a [] res st
                (fresh_history r) Hr Hb) as H.
  cbn [fst] in Hok. rewrite Hok in H. unfold built. now rewrite Hb.
Qed.

End DemoFacts.

(** ** The arguments of a build and the call they resolve to *)

Section ResolvedFacts.
Variable E : Env.

Lemma after_prologue_fund address htlc amount st :
  after_prologue (FundArgs address htlc amount) st = st.
Proof.
  unfold after_prologue. cbn. rewrite app_nil_r. now destruct st.
Qed.

(** Arguments that resolve to a call: the builder is the shared tail, run
    after the requests of the prologue. *)
Lemma build_resolved a st f :
  call_resolved E a st f ->
  build_transaction_as E a st =
  estimate_and_build E f (address_of a) (value_of a) (unsigned_type (role_of a))
    (after_prologue a st).
Proof.
  destruct a as [address htlc amount
                |transaction_hash address secret_key htlc_transaction_hash
                |transaction_hash address htlc_transaction_hash];
    cbn [call_resolved address_of value_of role_of unsigned_type].
  - intros (h & ag & -> & Ha & Hag & Hc & ->).
    rewrite after_prologue_fund.
    cbv beta iota delta
      [build_transaction_as FundTransaction.build_transaction bind lift raise
       agreements_of].
    rewrite Ha, Hag. cbn [negb]. rewrite Hc, String.eqb_refl. reflexivity.
  - intros (h & rc & log & ls & id & Ha & Hh & Hrc & Hl & Hid & ->).
    cbv beta iota delta
      [build_transaction_as WithdrawTransaction.build_transaction bind lift
       raise get request locked_contract_id_of].
    rewrite Ha. cbn [negb]. rewrite Hh. cbn [self served web3].
    rewrite length_snoc, Hrc, Hl. fold (contract_of h). rewrite Hid.
    unfold after_prologue. cbn [prologue_requests].
    now rewrite <- app_assoc.
  - intros (h & rc & log & ls & id & Ha & Hh & Hrc & Hl & Hid & ->).
    cbv beta iota delta
      [build_transaction_as RefundTransaction.build_transaction bind lift
       raise get request locked_contract_id_of].
    rewrite Ha. cbn [negb]. rewrite Hh. cbn [self served web3].
    rewrite length_snoc, Hrc, Hl. fold (contract_of h). rewrite Hid.
    unfold after_prologue. cbn [prologue_requests].
    now rewrite <- app_assoc.
Qed.

(** A build that succeeds had arguments that resolve to a call. *)
Lemma build_ok_resolved a st u st' :
  build_transaction_as E a st = (Ok u, st') ->
  exists f, call_resolved E a st f.
Proof.
  destruct a as [address htlc amount
                |transaction_hash address secret_key htlc_transaction_hash
                |transaction_hash address htlc_transaction_hash];
    cbv beta iota delta
      [build_transaction_as FundTransaction.build_transaction
       WithdrawTransaction.build_transaction RefundTransaction.build_transaction
       bind lift raise get request locked_contract_id_of agreements_of
       call_resolved];
    intros H.
  - destruct htlc as [r s|h|n]; try discriminate H.
    destruct (is_address E address) eqn:Ha; [|discriminate H]. cbn [negb] in H.
    destruct (agreements h) as [ag|] eqn:Hag; [|discriminate H].
    destruct (String.eqb_spec (to_checksum_address E address "0x")
                (sender_address ag)) as [Hc|Hc]; [|discriminate H].
    eexists. exists h, ag. repeat split; try assumption.
  - destruct (is_address E address) eqn:Ha; [|discriminate H]. cbn [negb] in H.
    destruct (get_htlc _ _ _) as [h|e] eqn:Hh; [|discriminate H].
    cbn [self served web3] in H. rewrite length_snoc in H.
    destruct (get_transaction_receipt _ _) as [rc|e] eqn:Hrc; [|discriminate H].
    destruct (logs rc) as [|log ls] eqn:Hl; [discriminate H|].
    fold (contract_of h) in H.
    destruct (processLog E _ log) as [id|e] eqn:Hid; [|discriminate H].
    eexists. exists h, rc, log, ls, id. repeat split; eassumption.
  - destruct (is_address E address) eqn:Ha; [|discriminate H]. cbn [negb] in H.
    destruct (get_htlc _ _ _) as [h|e] eqn:Hh; [|discriminate H].
    cbn [self served web3] in H. rewrite length_snoc in H.
    destruct (get_transaction_receipt _ _) as [rc|e] eqn:Hrc; [|discriminate H].
    destruct (logs rc) as [|log ls] eqn:Hl; [discriminate H|].
    fold (contract_of h) in H.
    destruct (processLog E _ log) as [id|e] eqn:Hid; [|discriminate H].
    eexists. exists h, rc, log, ls, id. repeat split; eassumption.
Qed.

Lemma served_after_prologue a st :
  served (after_prologue a st) =
  served st ++ prologue_requests a (_network (self st)).
Proof.
  reflexivity.
Qed.

(** A successful build, in full: the call, the answers of the node to the
    six requests of the tail, what is stored and what was asked. *)
Lemma build_ok_answers a st u st' :
  build_transaction_as E a st = (Ok u, st') ->
  exists f nonce1 price1 fee nonce2 price2 chain_id,
    let st0 := after_prologue a st in
    let sender := to_checksum_address E (address_of a) "0x" in
    call_resolved E a st f /\
    get_transaction_count (node_at E st0 0) sender = Ok nonce1 /\
    gasPrice (node_at E st0 1) = Ok price1 /\
    estimateGas (node_at E st0 2) f
      (estimated E (address_of a) (value_of a) nonce1 price1) = Ok fee /\
    get_transaction_count (node_at E st0 3) sender = Ok nonce2 /\
    gasPrice (node_at E st0 4) = Ok price2 /\
    chainId (node_at E st0 5) = Ok chain_id /\
    self st' =
      set_type (unsigned_type (role_of a))
        (set_transaction
           (assembled E f (address_of a) (value_of a) chain_id nonce2 fee price2)
           (set_fee fee (self st))) /\
    served st' =
      served st ++ prologue_requests a (_network (self st)) ++
      tail_requests E f (address_of a) (value_of a) nonce1 price1 fee nonce2 price2.
Proof.
  intros Hb. destruct u.
  destruct (build_ok_resolved a st tt st' Hb) as [f Hf].
  rewrite (build_resolved a st f Hf) in Hb.
  apply estimate_and_build_ok in Hb.
  destruct Hb as (n1 & p1 & fee & n2 & p2 & c & H1 & H2 & H3 & H4 & H5 & H6
                  & Hself & Hserved).
  exists f, n1, p1, fee, n2, p2, c. cbn zeta in *.
  repeat split; try assumption.
  rewrite Hserved, served_after_prologue. now rewrite <- app_assoc.
Qed.

End ResolvedFacts.

(* ================================================================= *)
(** * Part III: the specification, claim by claim *)
(* ================================================================= *)

Section Claims.
Variable E : Env.

(** C1.  Signing by way of the signature facade, from the unsigned raw alone,
    gives the same signed raw, character for character, as signing the
    builder object: for every role, every built unsigned transaction and every
    solver, the two results are equal (also when both raise), and the raw
    dispatched on its type tag agrees as well; when the signer accepts the
    transaction with the key of a solver of the role, the common result is a
    signed raw. *)
Theorem facade_signs_as_builder r solver t :
  history E r true t ->
  _type t = Some (unsigned_type r) ->
  signed_raw_by_facade E r solver t = signed_raw_by_builder E r solver t /\
  signed_raw_by_dispatch E solver t = signed_raw_by_builder E r solver t /\
  (forall s d signed,
     solver = SolverObject r s -> _transaction t = Some d ->
     ecdsa E d (key_of E s) = Ok signed ->
     exists signed_raw, signed_raw_by_builder E r solver t = Ok signed_raw).
Proof.
  intros Hh Hty. pose proof (history_inv E r true t Hh) as Hinv.
  destruct (inv_raw_ready E t Hinv) as (Hb & Hwt & Hws).
  destruct (decode_transaction_raw_of t Hb Hwt Hws) as (raw & Hraw & Hdec).
  destruct (reconstruct_raw_dict E t Hinv) as (t0 & Hrec & Hsame).
  assert (Hty0 : _type t0 = Some (unsigned_type r)).
  { destruct Hsame as (_ & _ & _ & -> & _). exact Hty. }
  destruct (sign_same_fields E r solver t0 t Hsame) as [Hres Hst].
  assert (Hfacade :
    match sign_as E r solver t0 with
    | (Ok _, t') => and_then (Ok t') TransactionClass.transaction_raw
    | (Raise e, _) => Raise e
    end = signed_raw_by_builder E r solver t).
  { unfold signed_raw_by_builder.
    destruct (sign_as E r solver t0) as [res0 t0'].
    destruct (sign_as E r solver t) as [res t'].
    cbn [fst snd] in Hres, Hst. subst res0.
    destruct res; [|reflexivity].
    cbn [and_then]. now apply transaction_raw_same_fields. }
  split; [|split].
  - unfold signed_raw_by_facade, Signature.sign_role.
    rewrite Hraw. cbn [and_then]. rewrite Hdec. cbn [and_then].
    rewrite Hrec. cbn [and_then]. rewrite Hty0, String.eqb_refl.
    rewrite <- Hfacade.
    now destruct (sign_as E r solver t0) as [[u|e] t0'].
  - unfold signed_raw_by_dispatch, Signature.sign.
    rewrite Hraw. cbn [and_then]. rewrite Hdec. cbn [and_then].
    rewrite Hrec. cbn [and_then]. rewrite Hty0. cbn [and_then].
    rewrite role_of_unsigned_type.
    rewrite <- Hfacade.
    now destruct (sign_as E r solver t0) as [[u|e] t0'].
  - intros s d signed -> Hd Hsig.
    unfold signed_raw_by_builder. rewrite sign_right_solver.
    unfold sign_transaction. rewrite Hd, Hsig.
    unfold TransactionClass.transaction_raw.
    cbn [_transaction set_type set_signature]. rewrite Hd.
    destruct Hinv as [_ (d' & _ & _ & Hd' & Hshape & _)].
    rewrite Hd in Hd'. injection Hd' as <-.
    rewrite (built_truthy E d Hshape). cbn [negb]. eauto.
Qed.

(** C2.  For every built transaction, of any role, signed or not,
    [decode_transaction_raw] applied to [transaction_raw()] returns the dict
    of exactly the five keys fee, transaction, signature, network and type,
    with the values the object stores. *)
Theorem decode_is_left_inverse r t :
  history E r true t ->
  exists transaction_raw,
    TransactionClass.transaction_raw t = Ok transaction_raw /\
    decode_transaction_raw transaction_raw =
    Ok [("fee", py_int (_fee t));
        ("transaction", py_dict (_transaction t));
        ("signature", py_dict (_signature t));
        ("network", PStr (_network t));
        ("type", py_str (_type t))].
Proof.
  intros Hh. pose proof (history_inv E r true t Hh) as Hinv.
  destruct (inv_raw_ready E t Hinv) as (Hb & Hwt & Hws).
  exact (decode_transaction_raw_of t Hb Hwt Hws).
Qed.

(** C3.  What [sign] does on a transaction that was never built, with a
    solver of its role: there is no check of the build; the key is derived
    and the signer is called on [None], whose [TypeError] is what the caller
    sees, not the "build transaction first" [ValueError] of the accessors.
    The object is left as it was. *)
Theorem sign_before_build r s t :
  history E r false t ->
  sign_as E r (SolverObject r s) t =
  (Raise (TypeError "transaction_dict must be dict-like, got None"), t) /\
  ~ sign_requires_build E r (SolverObject r s) t.
Proof.
  intros Hh. pose proof (history_inv E r false t Hh) as [_ Ht].
  assert (Hs : sign_as E r (SolverObject r s) t =
               (Raise (TypeError "transaction_dict must be dict-like, got None"), t)).
  { rewrite sign_right_solver. now rewrite Ht. }
  split; [exact Hs|].
  intros Hreq. specialize (Hreq Hh). rewrite Hs in Hreq. discriminate Hreq.
Qed.

(** C4.  For every role, each of [fee], [hash], [json], [raw], [type],
    [signature] and [transaction_raw], called on an object on which no
    [build_transaction] has succeeded, raises the [ValueError]
    "Transaction is none, build transaction first.". *)
Theorem accessors_before_build r t unit :
  history E r false t ->
  let not_built := ValueError "Transaction is none, build transaction first." in
  TransactionClass.fee E t unit = Raise not_built /\
  TransactionClass.hash t = Raise not_built /\
  TransactionClass.json t = Raise not_built /\
  TransactionClass.raw t = Raise not_built /\
  TransactionClass.type t = Raise not_built /\
  TransactionClass.signature t = Raise not_built /\
  TransactionClass.transaction_raw t = Raise not_built.
Proof.
  intros Hh. pose proof (history_inv E r false t Hh) as [_ Ht].
  unfold TransactionClass.fee, TransactionClass.hash, TransactionClass.json,
    TransactionClass.raw, TransactionClass.type, TransactionClass.signature,
    TransactionClass.transaction_raw.
  rewrite Ht. cbn. repeat split.
Qed.


(** C6.  For every role, [sign] with an object that is not a solver of that
    role (a solver of another role, or anything else) raises the [TypeError]
    whose message names the solver class expected and the class of the object
    given, and leaves the transaction as it was. *)
Theorem sign_refuses_other_solver r solver t :
  isinstance_solver solver r = false ->
  sign_as E r solver t =
  (Raise (TypeError ("Solver must be XinFin " ++ solver_class_name r ++
                     ", not " ++ type_name_of solver ++ " type.")%string), t).
Proof.
  apply sign_wrong_solver.
Qed.

(** C7, amended.  Within one successful [build_transaction], of any role,
    the nonce used for the fee estimate and the nonce of the assembled
    transaction are the answers to two separate transaction-count requests
    for the checksummed address, the second three requests after the first:
    they are equal whenever the node gives the same count at both
    instants. *)
Theorem nonces_of_two_requests a st st' :
  build_transaction_as E a st = (Ok tt, st') ->
  let sender := to_checksum_address E (address_of a) "0x" in
  exists i nonce1 nonce2,
    List.length (served st) <= i /\
    get_transaction_count (chain E (web3 (self st)) i) sender = Ok nonce1 /\
    get_transaction_count (chain E (web3 (self st)) (i + 3)) sender = Ok nonce2 /\
    estimation_nonce st' = Some (PInt nonce1) /\
    assembled_nonce (self st') = Some (PInt nonce2) /\
    (get_transaction_count (chain E (web3 (self st)) i) sender =
     get_transaction_count (chain E (web3 (self st)) (i + 3)) sender ->
     estimation_nonce st' = assembled_nonce (self st')).
Proof.
  intros Hb sender. apply build_as_tail in Hb.
  destruct Hb as [(e & He & _)|(f & st0 & pre & Hs & Hpre & Hb)]; [discriminate|].
  apply estimate_and_build_ok in Hb.
  destruct Hb as (n1 & p1 & fee & n2 & p2 & c & H1 & _ & _ & H2 & _ & _ & Hself & Hserved).
  cbn zeta in H1, H2, Hserved. fold sender in H1, H2, Hserved.
  unfold node_at in H1, H2. rewrite Hs in H1, H2. rewrite Nat.add_0_r in H1.
  assert (Hest : estimation_nonce st' = Some (PInt n1)).
  { unfold estimation_nonce, estimate_request. rewrite Hserved, fold_left_app.
    reflexivity. }
  assert (Hasm : assembled_nonce (self st') = Some (PInt n2)).
  { unfold assembled_nonce. rewrite Hself. reflexivity. }
  exists (List.length (served st0)), n1, n2.
  repeat split; try assumption.
  - rewrite Hpre, length_app. lia.
  - intros Heq. rewrite Hest, Hasm. rewrite H1, H2 in Heq. congruence.
Qed.

(** C8.  [FundTransaction.build_transaction], given an HTLC: it raises
    [AddressError], and changes nothing, whenever the sender address is
    malformed or its checksum form differs from the sender address of the
    agreements; and it builds the transaction only when the address is well
    formed and its checksum form is the sender address of the agreements. *)
Theorem fund_checks_sender address h amount st :
  let run := FundTransaction.build_transaction E address (HTLCObject h) amount st in
  (is_address E address = false \/
   (exists a, agreements h = Some a /\
              to_checksum_address E address "0x" <> sender_address a) ->
   exists msg detail, run = (Raise (AddressError msg detail), st)) /\
  (forall u st', run = (Ok u, st') ->
     is_address E address = true /\
     exists a, agreements h = Some a /\
               to_checksum_address E address "0x" = sender_address a).
Proof.
  cbv beta iota zeta delta
    [FundTransaction.build_transaction bind lift raise agreements_of].
  split.
  - intros [Hbad|(a & Ha & Hne)].
    + rewrite Hbad. cbn [negb]. eauto.
    + destruct (is_address E address); cbn [negb]; [|eauto].
      rewrite Ha. apply String.eqb_neq in Hne. rewrite Hne. cbn [negb]. eauto.
  - intros u st'.
    destruct (is_address E address); cbn [negb]; [|discriminate].
    destruct (agreements h) as [a|]; [|discriminate].
    destruct (String.eqb_spec (to_checksum_address E address "0x")
                (sender_address a)) as [Heq|Hne]; cbn [negb]; [|discriminate].
    intros _. split; [reflexivity|]. eauto.
Qed.

(** C9, amended.  On a built transaction every accessor returns or raises.
    [json], [type] and [fee] in Wei return the stored dict, which is not
    empty, the stored type and the stored fee, and [transaction_raw] the raw
    of these, of the stored signature and of the network; [hash], [raw] and
    [signature] return [None] as long as the transaction carries no
    signature, and the entries "hash" and "rawTransaction" of the stored
    signature and the signature itself once it does. *)
Theorem accessors_of_built r t :
  history E r true t ->
  exists d ty fee,
    _transaction t = Some d /\ d <> [] /\
    _type t = Some ty /\ _fee t = Some fee /\
    TransactionClass.json t = Ok (PDict d) /\
    TransactionClass.type t = Ok (PStr ty) /\
    TransactionClass.fee E t "Wei" = Ok (FeeWei (Some fee)) /\
    TransactionClass.transaction_raw t =
    Ok (string_of_list_ascii
          (clean_transaction_raw
             (Base64.b64encode
                (Utf8.encode
                   (Json.dumps
                      (PDict [("fee", PInt fee);
                              ("transaction", PDict d);
                              ("signature", py_dict (_signature t));
                              ("network", PStr (_network t));
                              ("type", PStr ty)])))))) /\
    match _signature t with
    | None =>
        TransactionClass.hash t = Ok PNone /\
        TransactionClass.raw t = Ok PNone /\
        TransactionClass.signature t = Ok PNone
    | Some s =>
        exists h x,
          dict_get "hash" s = Some (PStr h) /\
          dict_get "rawTransaction" s = Some (PStr x) /\
          TransactionClass.hash t = Ok (PStr h) /\
          TransactionClass.raw t = Ok (PStr x) /\
          TransactionClass.signature t = Ok (PDict s)
    end.
Proof.
  intros Hh. pose proof (history_inv E r true t Hh) as Hinv.
  destruct Hinv as [Hsig (d & fee & ty & Ht & Hd & Hf & Hty)].
  pose proof (built_truthy E d Hd) as Hb.
  exists d, ty, fee.
  unfold TransactionClass.json, TransactionClass.type,
    TransactionClass.transaction_raw, TransactionClass.fee,
    TransactionClass.hash, TransactionClass.raw, TransactionClass.signature,
    TransactionClass.signature_item, TransactionClass.raw_dict.
  rewrite Ht, Hb, Hf, Hty. cbn [negb py_dict py_str py_int].
  split; [reflexivity|]. split.
  { destruct Hd as (f & a & v & c & n & g & p & ->). discriminate. }
  do 6 (split; [reflexivity|]).
  destruct (_signature t) as [s|]; [|cbn; auto].
  destruct Hsig as [signed ->]. cbn. eauto 10.
Qed.

(** C10.  After every successful [build_transaction], of every role, the
    stored fee is the answer of the node to the [estimateGas] request of
    that build, made for the call the arguments resolve to; it is the "gas"
    of the stored unsigned transaction, and it is what [fee] returns in
    Wei.  [sign], whether it succeeds or raises, changes neither the stored
    fee nor the gas, nor what [fee] returns in any unit. *)
Theorem fee_is_gas :
  (forall a st u st',
     build_transaction_as E a st = (Ok u, st') ->
     exists f nonce gas_price fee,
       let st0 := after_prologue a st in
       let sender := to_checksum_address E (address_of a) "0x" in
       call_resolved E a st f /\
       get_transaction_count (node_at E st0 0) sender = Ok nonce /\
       gasPrice (node_at E st0 1) = Ok gas_price /\
       estimateGas (node_at E st0 2) f
         (estimated E (address_of a) (value_of a) nonce gas_price) = Ok fee /\
       _fee (self st') = Some fee /\
       gas_of (self st') = Some (PInt fee) /\
       TransactionClass.fee E (self st') "Wei" = Ok (FeeWei (Some fee))) /\
  (forall r solver t res t',
     sign_as E r solver t = (res, t') ->
     _fee t' = _fee t /\ gas_of t' = gas_of t /\
     forall unit, TransactionClass.fee E t' unit = TransactionClass.fee E t unit).
Proof.
  split.
  - intros a st u st' Hb. apply build_ok_answers in Hb.
    destruct Hb as (f & n1 & p1 & fee & n2 & p2 & c & Hf & H1 & H2 & H3 & _ & _ & _
                    & Hself & _).
    exists f, n1, p1, fee. cbn zeta. rewrite Hself. repeat split; assumption.
  - intros r solver t res t' Hs. apply sign_cases in Hs.
    destruct Hs as [(e & _ & ->)|(s & signed & _ & _ & _ & ->)];
      repeat split; reflexivity.
Qed.

End Claims.

(* ================================================================= *)
(** * Part IV: the claims on the example *)
(* ================================================================= *)

Module Examples.
Import Demo.

(** The end-to-end scenario: a refund is built, signed by the builder and,
    from its unsigned raw, by the facade; the two signed raws are equal. *)
Lemma facade_signs_as_builder_refund :
  exists signed_raw,
    signed_raw_by_builder quiet Refund (solver_of Refund 0) (built quiet refund_args)
      = Ok signed_raw /\
    signed_raw_by_facade quiet Refund (solver_of Refund 0) (built quiet refund_args)
      = Ok signed_raw /\
    signed_raw_by_dispatch quiet (solver_of Refund 0) (built quiet refund_args)
      = Ok signed_raw.
Proof.
  destruct (facade_signs_as_builder quiet Refund (solver_of Refund 0)
              (built quiet refund_args)) as (Hf & Hd & Hok).
  - apply DemoFacts.built_history; reflexivity.
  - reflexivity.
  - destruct (Hok _ _ _ eq_refl eq_refl eq_refl) as [signed_raw Hb].
    exists signed_raw. rewrite Hf, Hd. auto.
Defined.

Lemma decode_is_left_inverse_fund :
  exists transaction_raw,
    TransactionClass.transaction_raw (built quiet fund_args) = Ok transaction_raw /\
    decode_transaction_raw transaction_raw =
    Ok [("fee", PInt 138448);
        ("transaction", PDict (assembled quiet
           (fund {| contract_address := htlc_contract_address htlc;
                    contract_abi := htlc_abi htlc |}
              "3a26da82ead15a80533a02696656b14b5dbfd84eb14790f2e1be5e9e45820eeb"
              (checksum recipient "0x") (checksum sender "0x") 1624129000)
           sender 100000000 1337 1 138448 20000000000));
        ("signature", PNone);
        ("network", PStr "mainnet");
        ("type", PStr "xinfin_fund_unsigned")].
Proof.
  apply (decode_is_left_inverse quiet Fund (built quiet fund_args)).
  apply DemoFacts.built_history; reflexivity.
Defined.

Lemma sign_before_build_fund :
  sign_as quiet Fund (solver_of Fund 0) fresh =
  (Raise (TypeError "transaction_dict must be dict-like, got None"), fresh) /\
  ~ sign_requires_build quiet Fund (solver_of Fund 0) fresh.
Proof.
  apply (sign_before_build quiet Fund). apply DemoFacts.fresh_history.
Defined.

Lemma accessors_before_build_refund :
  TransactionClass.fee quiet fresh "Wei"
    = Raise (ValueError "Transaction is none, build transaction first.") /\
  TransactionClass.hash fresh
    = Raise (ValueError "Transaction is none, build transaction first.") /\
  TransactionClass.json fresh
    = Raise (ValueError "Transaction is none, build transaction first.") /\
  TransactionClass.raw fresh
    = Raise (ValueError "Transaction is none, build transaction first.") /\
  TransactionClass.type fresh
    = Raise (ValueError "Transaction is none, build transaction first.") /\
  TransactionClass.signature fresh
    = Raise (ValueError "Transaction is none, build transaction first.") /\
  TransactionClass.transaction_raw fresh
    = Raise (ValueError "Transaction is none, build transaction first.").
Proof.
  apply (accessors_before_build quiet Refund fresh "Wei").
  apply DemoFacts.fresh_history.
Defined.



Lemma sign_refuses_refund_solver :
  sign_as quiet Withdraw (solver_of Refund 0) (built quiet withdraw_args) =
  (Raise (TypeError "Solver must be XinFin WithdrawSolver, not RefundSolver type."),
   built quiet withdraw_args).
Proof.
  apply (sign_refuses_other_solver quiet Withdraw (solver_of Refund 0)).
  reflexivity.
Defined.

(** On the busy chain the fee of a refund is estimated with nonce 2 and the
    transaction assembled with nonce 5. *)
Lemma busy_chain_two_nonces :
  ~ same_snapshot busy refund_args start.
Proof.
  intros H. specialize (H _ eq_refl). vm_compute in H. discriminate H.
Qed.

Lemma quiet_chain_one_nonce :
  estimation_nonce (snd (build_transaction_as quiet refund_args start)) =
  assembled_nonce (built quiet refund_args).
Proof.
  destruct (nonces_of_two_requests quiet refund_args start
              (snd (build_transaction_as quiet refund_args start)) eq_refl)
    as (i & n1 & n2 & _ & _ & _ & _ & _ & Heq).
  apply Heq. reflexivity.
Defined.

Lemma fund_refuses_bad_address :
  exists msg detail,
    FundTransaction.build_transaction quiet "bad-string" (HTLCObject htlc)
      100000000 start =
    (Raise (AddressError msg detail), start).
Proof.
  destruct (fund_checks_sender quiet "bad-string" htlc 100000000 start)
    as [Hraise _].
  apply Hraise. left. reflexivity.
Defined.

(** [hash], [raw] and [signature] of a built, unsigned transaction are
    [None]. *)
Lemma unsigned_hash_is_none :
  ~ accessors_populated quiet Fund (built quiet fund_args).
Proof.
  intros H.
  destruct H as (Hhash & _); [apply DemoFacts.built_history; reflexivity|].
  apply Hhash. reflexivity.
Qed.

Lemma accessors_of_built_fund :
  TransactionClass.json (built quiet fund_args) =
  Ok (py_dict (_transaction (built quiet fund_args))) /\
  TransactionClass.type (built quiet fund_args) = Ok (PStr "xinfin_fund_unsigned") /\
  TransactionClass.fee quiet (built quiet fund_args) "Wei" =
  Ok (FeeWei (Some 138448%Z)) /\
  TransactionClass.hash (built quiet fund_args) = Ok PNone.
Proof.
  destruct (accessors_of_built quiet Fund (built quiet fund_args))
    as (d & ty & fee & Hd & _ & Hty & Hf & Hjson & Htype & Hfee & _ & Hsig).
  - apply DemoFacts.built_history; reflexivity.
  - vm_compute in Hty, Hf. injection Hty as <-. injection Hf as <-.
    rewrite Hd. split; [exact Hjson|]. split; [exact Htype|].
    split; [exact Hfee|]. exact (proj1 Hsig).
Defined.

(** The fee of the fund of the examples is the 138448 that the node answers
    to the estimate. *)
Lemma fee_is_gas_fund :
  exists f nonce gas_price fee,
    call_resolved quiet fund_args start f /\
    get_transaction_count (node_at quiet start 0) (checksum sender "0x") = Ok nonce /\
    gasPrice (node_at quiet start 1) = Ok gas_price /\
    estimateGas (node_at quiet start 2) f
      (estimated quiet sender 100000000 nonce gas_price) = Ok fee /\
    _fee (built quiet fund_args) = Some fee /\
    gas_of (built quiet fund_args) = Some (PInt fee) /\
    TransactionClass.fee quiet (built quiet fund_args) "Wei" = Ok (FeeWei (Some fee)).
Proof.
  destruct (fee_is_gas quiet) as [Hbuild _].
  apply (Hbuild fund_args start tt (snd (build_transaction_as quiet fund_args start))).
  reflexivity.
Defined.

End Examples.

(* ================================================================= *)
(** * Part V: more of the builders, the signer and the accessors *)
(* ================================================================= *)

Section MoreFacts.
Variable E : Env.

(** X1.  The network of a transaction object is the one given to
    [__init__], which accepted it, and the node the object talks to is the
    one made there from that network and the provider: no sequence of
    [build_transaction] and [sign] calls, successful or failed, changes
    either. *)
Theorem network_is_fixed r network provider t0 t :
  TransactionClass.init E network provider = Ok t0 ->
  reachable E r t0 t ->
  is_network E network = true /\
  _network t = network /\
  web3 t = {| web3_network := network; web3_provider := provider |}.
Proof.
  intros Hinit Hr.
  unfold TransactionClass.init in Hinit.
  destruct (is_network E network) eqn:Hn; [|discriminate].
  cbn [negb] in Hinit. injection Hinit as <-.
  split; [reflexivity|].
  induction Hr as [|t a w res st Hr IH Ha Hb|t solver res t' Hr IH Hs].
  - split; reflexivity.
  - destruct res as [u|e].
    + apply build_ok in Hb. destruct Hb as (f & v & c & n & fee & p & ->).
      exact IH.
    + apply build_raise in Hb. cbn [self] in Hb.
      destruct Hb as [->|[fee ->]]; exact IH.
  - apply sign_cases in Hs.
    destruct Hs as [(e & _ & ->)|(s & signed & _ & _ & _ & ->)]; exact IH.
Qed.

(** X2.  [fee] of a built transaction: a unit other than XDC, Gwei and Wei
    raises [UnitError] naming the unit; Gwei and XDC return what the unit
    converter makes of the stored fee under "Wei2Gwei" and "Wei2XDC". *)
Theorem fee_by_unit r t unit :
  history E r true t ->
  exists fee,
    _fee t = Some fee /\
    (TransactionClass.valid_unit unit = false ->
     TransactionClass.fee E t unit =
     Raise (UnitError ("Invalid XinFin '" ++ unit ++ "' unit")%string
              "choose only 'XDC', 'Gwei' or 'Wei' units.")) /\
    (unit = "Gwei" \/ unit = "XDC" ->
     TransactionClass.fee E t unit =
     and_then (amount_unit_converter E (Some fee) ("Wei2" ++ unit)%string)
       (fun converted => Ok (FeeConverted converted))).
Proof.
  intros Hh. pose proof (history_inv E r true t Hh) as Hinv.
  destruct Hinv as [_ (d & fee & ty & Ht & Hd & Hf & _)].
  pose proof (built_truthy E d Hd) as Hb.
  exists fee. split; [exact Hf|].
  unfold TransactionClass.fee. rewrite Ht, Hb, Hf. cbn [negb]. split.
  - intros ->. reflexivity.
  - intros [->| ->]; reflexivity.
Qed.

(** X3.  A malformed address stops every builder before the first request:
    the call raises, the object and the record of requests are as they
    were.  The error is [AddressError], naming the sender for a fund and the
    recipient for a withdraw and for a refund; for a fund, an [htlc]
    argument that is not an HTLC is refused first, with [TypeError]. *)
Theorem malformed_address_no_request a st :
  is_address E (address_of a) = false ->
  exists e,
    build_transaction_as E a st = (Raise e, st) /\
    match a with
    | FundArgs address (HTLCObject _) _ =>
        e = AddressError ("Invalid XinFin sender '" ++ address ++ "' address.")%string None
    | FundArgs _ _ _ =>
        e = TypeError "Invalid HTLC instance, only takes xinfin HTLC class"
    | WithdrawArgs _ address _ _ =>
        e = AddressError ("Invalid XinFin recipient '" ++ address ++ "' address.")%string None
    | RefundArgs _ address _ =>
        e = AddressError ("Invalid XinFin recipient '" ++ address ++ "' address.")%string None
    end.
Proof.
  intros Ha.
  destruct a as [address htlc amount
                |transaction_hash address secret_key htlc_transaction_hash
                |transaction_hash address htlc_transaction_hash];
    cbn [address_of] in Ha;
    cbv beta iota delta
      [build_transaction_as FundTransaction.build_transaction
       WithdrawTransaction.build_transaction RefundTransaction.build_transaction
       bind lift raise].
  - destruct htlc as [r s|h|n]; try (eexists; split; reflexivity).
    rewrite Ha. cbn [negb]. eexists; split; reflexivity.
  - rewrite Ha. cbn [negb]. eexists; split; reflexivity.
  - rewrite Ha. cbn [negb]. eexists; split; reflexivity.
Qed.

(** X4.  A [build_transaction] that raises, of any role and at any point,
    keeps the stored transaction, signature, type and network of the object:
    an earlier build is not lost.  Only the fee may have been replaced, by
    the new estimate, when the failure came after it. *)
Theorem failed_build_keeps_transaction a st e st' :
  build_transaction_as E a st = (Raise e, st') ->
  _transaction (self st') = _transaction (self st) /\
  _signature (self st') = _signature (self st) /\
  _type (self st') = _type (self st) /\
  _network (self st') = _network (self st) /\
  web3 (self st') = web3 (self st) /\
  (_fee (self st') = _fee (self st) \/ exists fee, _fee (self st') = Some fee).
Proof.
  intros Hb. apply build_raise in Hb.
  destruct Hb as [->|[fee ->]]; cbn; repeat split; eauto.
Qed.

(** X5.  The requests of a successful [build_transaction], in order: none
    for a fund, the HTLC and the receipt of the funding transaction for a
    withdraw and a refund; then the transaction count, the gas price and the
    estimate, then the transaction count and the gas price again and the
    assembly.  Each request carries the answers of the node to the ones
    before it: the estimate is asked with the first count and price, the
    assembly with the second count and price and with the answer to the
    estimate as gas, which is also the fee that is stored; both are asked
    for the same call, sender and value. *)
Theorem requests_of_build a st u st' :
  build_transaction_as E a st = (Ok u, st') ->
  exists f nonce1 price1 fee nonce2 price2,
    let st0 := after_prologue a st in
    let sender := to_checksum_address E (address_of a) "0x" in
    call_resolved E a st f /\
    get_transaction_count (node_at E st0 0) sender = Ok nonce1 /\
    gasPrice (node_at E st0 1) = Ok price1 /\
    estimateGas (node_at E st0 2) f
      (estimated E (address_of a) (value_of a) nonce1 price1) = Ok fee /\
    get_transaction_count (node_at E st0 3) sender = Ok nonce2 /\
    gasPrice (node_at E st0 4) = Ok price2 /\
    _fee (self st') = Some fee /\
    served st' =
    served st ++ prologue_requests a (_network (self st)) ++
    tail_requests E f (address_of a) (value_of a) nonce1 price1 fee nonce2 price2.
Proof.
  intros Hb. apply build_ok_answers in Hb.
  destruct Hb as (f & n1 & p1 & fee & n2 & p2 & c & Hf & H1 & H2 & H3 & H4 & H5 & _
                  & Hself & Hserved).
  exists f, n1, p1, fee, n2, p2. cbn zeta.
  rewrite Hself. repeat split; assumption.
Qed.

(** X6.  What a successful [build_transaction] stores: [json] returns the
    transaction of the call the arguments resolve to, from the checksummed
    address, to the contract of the HTLC, with the amount as value for a
    fund and zero for a withdraw and a refund, with the answer of the node
    to the estimate as gas, and with the nonce, the gas price and the chain
    id that the node answered after the estimate; [type] returns the
    unsigned tag of the role. *)
Theorem stored_by_build a st u st' :
  build_transaction_as E a st = (Ok u, st') ->
  exists f nonce1 price1 fee nonce gas_price chain_id,
    let st0 := after_prologue a st in
    let sender := to_checksum_address E (address_of a) "0x" in
    call_resolved E a st f /\
    get_transaction_count (node_at E st0 0) sender = Ok nonce1 /\
    gasPrice (node_at E st0 1) = Ok price1 /\
    estimateGas (node_at E st0 2) f
      (estimated E (address_of a) (value_of a) nonce1 price1) = Ok fee /\
    get_transaction_count (node_at E st0 3) sender = Ok nonce /\
    gasPrice (node_at E st0 4) = Ok gas_price /\
    chainId (node_at E st0 5) = Ok chain_id /\
    TransactionClass.json (self st') =
    Ok (PDict [("chainId", PInt chain_id);
               ("from", PStr sender);
               ("value", PInt (value_of a)); ("nonce", PInt nonce);
               ("gas", PInt fee); ("gasPrice", PInt gas_price);
               ("to", PStr (contract_address (callee f)));
               ("data", PStr (encodeABI E f))]) /\
    TransactionClass.type (self st') = Ok (PStr (unsigned_type (role_of a))).
Proof.
  intros Hb. apply build_ok_answers in Hb.
  destruct Hb as (f & n1 & p1 & fee & n2 & p2 & c & Hf & H1 & H2 & H3 & H4 & H5 & H6
                  & Hself & _).
  exists f, n1, p1, fee, n2, p2, c. cbn zeta.
  rewrite Hself. repeat split; assumption.
Qed.

Lemma unsigned_is_not_signed r : unsigned_type r <> signed_type r.
Proof.
  destruct r; discriminate.
Qed.

(** X7.  The type tag of a built transaction is the unsigned or the signed
    tag of its own role, whatever builds and signs it went through, and it is
    the signed tag only when a signature is stored. *)
Theorem type_tag_of_built r t :
  history E r true t ->
  _type t = Some (unsigned_type r) \/
  (_type t = Some (signed_type r) /\ _signature t <> None).
Proof.
  intros Hh.
  enough (Hgen : forall b, history E r b t -> b = true ->
            _type t = Some (unsigned_type r) \/
            (_type t = Some (signed_type r) /\ _signature t <> None))
    by exact (Hgen true Hh eq_refl).
  clear Hh.
  induction 1 as [network provider t Hinit
                 |b t a w res st Hh IH Hr Hb
                 |b t solver res t' Hh IH Hs]; intros Hbt.
  - discriminate.
  - destruct res as [u|e].
    + apply build_ok in Hb. destruct Hb as (f & v & c & n & fee & p & ->).
      left. cbn. now rewrite Hr.
    + cbn [is_ok] in Hbt. rewrite orb_false_r in Hbt.
      apply build_raise in Hb. cbn [self] in Hb.
      destruct Hb as [->|[fee ->]]; cbn [_type _signature set_fee]; now apply IH.
  - apply sign_cases in Hs.
    destruct Hs as [(e & _ & ->)|(s & signed & _ & _ & _ & ->)]; [now apply IH|].
    right. cbn. split; [reflexivity|discriminate].
Qed.

(** X8.  [sign] of a built transaction with a solver of its role is the
    signer's outcome on the stored transaction and the solver's key.  When
    the signer raises, [sign] raises the same and the object is as it was.
    When it returns, [hash] and [raw] are the hexadecimal texts of the hash
    and of the raw transaction it returned, [signature] is the dict of hash,
    rawTransaction, r, s and v, [type] is the signed tag of the role, and
    [json] and [fee] are as before. *)
Theorem sign_of_built r s t d unit :
  history E r true t ->
  _transaction t = Some d ->
  match ecdsa E d (key_of E s) with
  | Ok signed =>
      exists t',
        sign_as E r (SolverObject r s) t = (Ok tt, t') /\
        TransactionClass.hash t' = Ok (PStr (hex (st_hash signed))) /\
        TransactionClass.raw t' = Ok (PStr (hex (st_rawTransaction signed))) /\
        TransactionClass.signature t' =
        Ok (PDict [("hash", PStr (hex (st_hash signed)));
                   ("rawTransaction", PStr (hex (st_rawTransaction signed)));
                   ("r", PInt (st_r signed)); ("s", PInt (st_s signed));
                   ("v", PInt (st_v signed))]) /\
        TransactionClass.type t' = Ok (PStr (signed_type r)) /\
        TransactionClass.json t' = TransactionClass.json t /\
        TransactionClass.fee E t' unit = TransactionClass.fee E t unit
  | Raise e => sign_as E r (SolverObject r s) t = (Raise e, t)
  end.
Proof.
  intros Hh Hd. pose proof (history_inv E r true t Hh) as Hinv.
  destruct Hinv as [_ (d' & fee & ty & Ht & Hshape & Hf & _)].
  rewrite Hd in Ht. injection Ht as <-.
  pose proof (built_truthy E d Hshape) as Hb.
  rewrite sign_right_solver. unfold sign_transaction. rewrite Hd.
  destruct (ecdsa E d (key_of E s)) as [signed|e]; [|reflexivity].
  eexists. split; [reflexivity|].
  unfold TransactionClass.hash, TransactionClass.raw, TransactionClass.signature,
    TransactionClass.type, TransactionClass.json, TransactionClass.fee,
    TransactionClass.signature_item.
  cbn [_transaction _signature _type _fee set_type set_signature].
  rewrite Hd, Hb. cbn [negb]. repeat split.
Qed.

(** X9.  [transaction_raw] loses nothing: two built transactions, of any
    roles, with the same raw have the same fee, transaction, signature,
    network and type. *)
Theorem transaction_raw_injective r1 r2 t1 t2 :
  history E r1 true t1 ->
  history E r2 true t2 ->
  TransactionClass.transaction_raw t1 = TransactionClass.transaction_raw t2 ->
  same_fields t1 t2.
Proof.
  intros H1 H2 Hraw.
  pose proof (history_inv E r1 true t1 H1) as Hi1.
  pose proof (history_inv E r2 true t2 H2) as Hi2.
  destruct (inv_raw_ready E t1 Hi1) as (Hb1 & Hwt1 & Hws1).
  destruct (inv_raw_ready E t2 Hi2) as (Hb2 & Hwt2 & Hws2).
  destruct (decode_transaction_raw_of t1 Hb1 Hwt1 Hws1) as (raw1 & Hr1 & Hd1).
  destruct (decode_transaction_raw_of t2 Hb2 Hwt2 Hws2) as (raw2 & Hr2 & Hd2).
  rewrite Hr1, Hr2 in Hraw. injection Hraw as ->.
  rewrite Hd1 in Hd2. injection Hd2 as Hfee Htx Hsig Hnet Hty.
  destruct Hi1 as [_ (d1 & f1 & ty1 & Ht1 & _ & Hf1 & Hty1)].
  destruct Hi2 as [_ (d2 & f2 & ty2 & Ht2 & _ & Hf2 & Hty2)].
  rewrite Hf1, Hf2 in Hfee. rewrite Ht1, Ht2 in Htx. rewrite Hty1, Hty2 in Hty.
  cbn in Hfee, Htx, Hty.
  unfold same_fields. rewrite Hf1, Hf2, Ht1, Ht2, Hty1, Hty2.
  repeat split; try congruence.
  destruct (_signature t1), (_signature t2); cbn in Hsig; congruence.
Qed.

(** X10.  [sign] reads the stored transaction and the solver, and nothing
    else of the object: on two objects with the same stored transaction,
    whatever their networks, it has the same outcome and stores the same
    signature. *)
Theorem sign_reads_transaction_only r solver t1 t2 :
  _transaction t1 = _transaction t2 ->
  fst (sign_as E r solver t1) = fst (sign_as E r solver t2) /\
  (is_ok (fst (sign_as E r solver t1)) = true ->
   _signature (snd (sign_as E r solver t1)) =
   _signature (snd (sign_as E r solver t2)) /\
   _type (snd (sign_as E r solver t1)) = _type (snd (sign_as E r solver t2))).
Proof.
  intros Ht.
  destruct (isinstance_solver solver r) eqn:Hi.
  - apply isinstance_solver_true in Hi. destruct Hi as [s ->].
    rewrite !sign_right_solver, Ht.
    destruct (sign_transaction E (_transaction t2) (key_of E s)); cbn; auto.
    split; [reflexivity|discriminate].
  - rewrite !(sign_wrong_solver E _ _ _ Hi). cbn.
    split; [reflexivity|discriminate].
Qed.

(** X11.  A withdraw or a refund whose funding receipt has no log: the
    builder raises [IndexError] after its two lookups, and the object is as
    it was. *)
Theorem receipt_without_logs transaction_hash address htlc_transaction_hash st h rc :
  is_address E address = true ->
  get_htlc (chain E (web3 (self st)) (List.length (served st)))
    htlc_transaction_hash (_network (self st)) = Ok h ->
  get_transaction_receipt (chain E (web3 (self st)) (S (List.length (served st))))
    transaction_hash = Ok rc ->
  logs rc = [] ->
  (forall secret_key,
     let a := WithdrawArgs transaction_hash address secret_key htlc_transaction_hash in
     build_transaction_as E a st =
     (Raise (IndexError "list index out of range"), after_prologue a st)) /\
  (let a := RefundArgs transaction_hash address htlc_transaction_hash in
   build_transaction_as E a st =
   (Raise (IndexError "list index out of range"), after_prologue a st)).
Proof.
  intros Ha Hh Hrc Hl.
  split; [intros secret_key|]; cbv zeta;
    cbv beta iota delta
      [build_transaction_as WithdrawTransaction.build_transaction
       RefundTransaction.build_transaction bind lift raise get request
       locked_contract_id_of];
    rewrite Ha; cbn [negb]; rewrite Hh; cbn [self served web3];
    rewrite length_snoc, Hrc, Hl; unfold after_prologue;
    cbn [prologue_requests self served]; now rewrite <- app_assoc.
Qed.

(** X12.  When the node refuses the estimate, the builder raises the node's
    error as it is, after three requests of the tail; the object is as it
    was, the fee included, and no transaction is assembled. *)
Theorem refused_estimate a st f nonce price e :
  call_resolved E a st f ->
  let st0 := after_prologue a st in
  let sender := to_checksum_address E (address_of a) "0x" in
  get_transaction_count (node_at E st0 0) sender = Ok nonce ->
  gasPrice (node_at E st0 1) = Ok price ->
  estimateGas (node_at E st0 2) f
    (estimated E (address_of a) (value_of a) nonce price) = Raise e ->
  build_transaction_as E a st =
  (Raise e,
   {| self := self st;
      served := served st0 ++
                [GetTransactionCount sender; GasPrice;
                 EstimateGas f (estimated E (address_of a) (value_of a) nonce price)] |}).
Proof.
  intros Hf st0 sender Hn Hp He.
  rewrite (build_resolved E a st f Hf). fold st0.
  unfold node_at in Hn, Hp, He.
  rewrite Nat.add_0_r in Hn. rewrite Nat.add_1_r in Hp.
  replace (List.length (served st0) + 2) with (S (S (List.length (served st0))))
    in He by lia.
  unfold estimate_and_build, bind, request, on_self, modify.
  cbn [self served web3]. fold sender. rewrite Hn.
  rewrite length_snoc, Hp. rewrite !length_snoc.
  unfold estimated in He. fold sender in He. rewrite He.
  cbn [self served]. repeat rewrite <- app_assoc. reflexivity.
Qed.

(** X13.  Building again after a sign does not clear the signature: when a
    [build_transaction] succeeds on a built object, [hash], [raw] and
    [signature] return what they returned before it, the signature of the
    earlier transaction included, while [type] is back to the unsigned tag
    of the role. *)
Theorem rebuild_keeps_signature r a st u st' :
  history E r true (self st) ->
  role_of a = r ->
  build_transaction_as E a st = (Ok u, st') ->
  TransactionClass.hash (self st') = TransactionClass.hash (self st) /\
  TransactionClass.raw (self st') = TransactionClass.raw (self st) /\
  TransactionClass.signature (self st') = TransactionClass.signature (self st) /\
  TransactionClass.type (self st') = Ok (PStr (unsigned_type r)).
Proof.
  intros Hh Hr Hb. pose proof (history_inv E r true (self st) Hh) as Hinv.
  destruct Hinv as [_ (d & fee & ty & Ht & Hshape & _)].
  pose proof (built_truthy E d Hshape) as Htr.
  apply build_ok in Hb. destruct Hb as (f & v & c & n & fee' & p & ->).
  unfold TransactionClass.hash, TransactionClass.raw, TransactionClass.signature,
    TransactionClass.type, TransactionClass.signature_item.
  cbn [_transaction _signature _type set_type set_transaction set_fee].
  rewrite Ht, Htr, Hr. cbn [negb]. repeat split.
Qed.

End MoreFacts.

(* ================================================================= *)
(** * Part VI: the further properties on the example *)
(* ================================================================= *)

Module MoreExamples.
Import Demo DemoMore.

Lemma signed_fund_history : history quiet Fund true signed_fund.
Proof.
  apply (history_sign quiet Fund true (built quiet fund_args) (solver_of Fund 0)
           (fst (sign_as quiet Fund (solver_of Fund 0) (built quiet fund_args)))).
  - apply DemoFacts.built_history; reflexivity.
  - apply surjective_pairing.
Qed.

(** The fund of the examples, built by an object on another provider. *)
Lemma other_provider_history :
  history quiet Fund true
    (self (snd (build_transaction_as quiet fund_args
                  {| self := {| _network := "mainnet";
                                web3 := {| web3_network := "mainnet";
                                           web3_provider := "websocket" |};
                                _transaction := None; _signature := None;
                                _type := None; _fee := None |};
                     served := [] |}))).
Proof.
  refine (history_build quiet Fund false _ fund_args [] (Ok tt) _ _ eq_refl eq_refl).
  apply (history_init quiet Fund "mainnet" "websocket"). reflexivity.
Qed.

Lemma signed_fund_reachable : reachable quiet Fund fresh signed_fund.
Proof.
  apply (reachable_sign quiet Fund fresh (built quiet fund_args) (solver_of Fund 0)
           (fst (sign_as quiet Fund (solver_of Fund 0) (built quiet fund_args)))).
  - apply (reachable_build quiet Fund fresh fresh fund_args []
             (fst (build_transaction_as quiet fund_args start))).
    + apply reachable_refl.
    + reflexivity.
    + apply surjective_pairing.
  - apply surjective_pairing.
Qed.

Lemma network_is_fixed_fund :
  is_network quiet "mainnet" = true /\
  _network signed_fund = "mainnet" /\
  web3 signed_fund = {| web3_network := "mainnet"; web3_provider := "http" |}.
Proof.
  apply (network_is_fixed quiet Fund "mainnet" "http" fresh signed_fund).
  - reflexivity.
  - apply signed_fund_reachable.
Defined.

Lemma fee_in_unknown_unit :
  TransactionClass.fee quiet (built quiet fund_args) "Ether" =
  Raise (UnitError "Invalid XinFin 'Ether' unit"
           "choose only 'XDC', 'Gwei' or 'Wei' units.").
Proof.
  destruct (fee_by_unit quiet Fund (built quiet fund_args) "Ether")
    as (fee & _ & Hbad & _).
  - apply DemoFacts.built_history; reflexivity.
  - apply Hbad. reflexivity.
Defined.

Lemma refund_refuses_bad_address :
  build_transaction_as quiet (RefundArgs funding_hash "bad-string" None) start =
  (Raise (AddressError "Invalid XinFin recipient 'bad-string' address." None),
   start).
Proof.
  destruct (malformed_address_no_request quiet
              (RefundArgs funding_hash "bad-string" None) start eq_refl)
    as (e & Hb & He).
  rewrite He in Hb. exact Hb.
Defined.

Lemma refused_rebuild_keeps_transaction :
  _transaction
    (self (snd (build_transaction_as refusing fund_args
                  {| self := built quiet fund_args; served := [] |}))) =
  _transaction (built quiet fund_args).
Proof.
  destruct (failed_build_keeps_transaction refusing fund_args
              {| self := built quiet fund_args; served := [] |}
              (ProviderError "execution reverted")
              (snd (build_transaction_as refusing fund_args
                      {| self := built quiet fund_args; served := [] |}))
              eq_refl) as (Ht & _).
  exact Ht.
Defined.

Lemma refund_makes_eight_requests :
  List.length (served (snd (build_transaction_as quiet refund_args start))) = 8.
Proof.
  destruct (requests_of_build quiet refund_args start tt
              (snd (build_transaction_as quiet refund_args start)) eq_refl)
    as (f & n1 & p1 & fee & n2 & p2 & _ & _ & _ & _ & _ & _ & _ & Hs).
  rewrite Hs. reflexivity.
Defined.

Lemma withdraw_carries_no_value :
  exists f nonce1 price1 fee nonce gas_price chain_id,
    let st0 := after_prologue withdraw_args start in
    call_resolved quiet withdraw_args start f /\
    get_transaction_count (node_at quiet st0 0) (checksum recipient "0x") = Ok nonce1 /\
    gasPrice (node_at quiet st0 1) = Ok price1 /\
    estimateGas (node_at quiet st0 2) f
      (estimated quiet recipient 0 nonce1 price1) = Ok fee /\
    get_transaction_count (node_at quiet st0 3) (checksum recipient "0x") = Ok nonce /\
    gasPrice (node_at quiet st0 4) = Ok gas_price /\
    chainId (node_at quiet st0 5) = Ok chain_id /\
    TransactionClass.json (built quiet withdraw_args) =
    Ok (PDict [("chainId", PInt chain_id);
               ("from", PStr (checksum recipient "0x"));
               ("value", PInt 0); ("nonce", PInt nonce);
               ("gas", PInt fee); ("gasPrice", PInt gas_price);
               ("to", PStr (contract_address (callee f)));
               ("data", PStr (encodeABI quiet f))]) /\
    TransactionClass.type (built quiet withdraw_args) =
    Ok (PStr "xinfin_withdraw_unsigned").
Proof.
  apply (stored_by_build quiet withdraw_args start tt
           (snd (build_transaction_as quiet withdraw_args start))).
  reflexivity.
Defined.

Lemma type_tag_of_signed_fund :
  _type signed_fund = Some "xinfin_fund_unsigned" \/
  (_type signed_fund = Some "xinfin_fund_signed" /\ _signature signed_fund <> None).
Proof.
  apply (type_tag_of_built quiet Fund signed_fund).
  apply signed_fund_history.
Defined.

Lemma sign_of_built_fund :
  fst (sign_as quiet Fund (solver_of Fund 0) (built quiet fund_args)) = Ok tt /\
  TransactionClass.type signed_fund = Ok (PStr "xinfin_fund_signed").
Proof.
  pose proof (sign_of_built quiet Fund
                (SolverClass.init quiet xprivate_key 0 false 0 None)
                (built quiet fund_args) _ "Wei"
                (DemoFacts.built_history Fund fund_args eq_refl eq_refl) eq_refl)
    as Hw.
  destruct Hw as (t' & Hs & _ & _ & _ & Hty & _).
  unfold signed_fund, solver_of. rewrite Hs. split; [reflexivity|exact Hty].
Defined.

Lemma same_raw_same_fields :
  same_fields (built quiet fund_args)
    (self (snd (build_transaction_as quiet fund_args
                  {| self := {| _network := "mainnet";
                                web3 := {| web3_network := "mainnet";
                                           web3_provider := "websocket" |};
                                _transaction := None; _signature := None;
                                _type := None; _fee := None |};
                     served := [] |}))).
Proof.
  apply (transaction_raw_injective quiet Fund Fund).
  - apply DemoFacts.built_history; reflexivity.
  - apply other_provider_history.
  - reflexivity.
Defined.

Lemma sign_ignores_network :
  let t1 := built quiet fund_args in
  let t2 := {| _network := "testnet"; web3 := web3 t1;
               _transaction := _transaction t1; _signature := None;
               _type := _type t1; _fee := _fee t1 |} in
  _signature (snd (sign_as quiet Fund (solver_of Fund 0) t1)) =
  _signature (snd (sign_as quiet Fund (solver_of Fund 0) t2)).
Proof.
  cbv zeta.
  destruct (sign_reads_transaction_only quiet Fund (solver_of Fund 0)
              (built quiet fund_args)
              {| _network := "testnet"; web3 := web3 (built quiet fund_args);
                 _transaction := _transaction (built quiet fund_args);
                 _signature := None;
                 _type := _type (built quiet fund_args);
                 _fee := _fee (built quiet fund_args) |} eq_refl)
    as (_ & Hsig).
  exact (proj1 (Hsig eq_refl)).
Defined.

Lemma refund_without_logs :
  build_transaction_as bare refund_args start =
  (Raise (IndexError "list index out of range"),
   after_prologue refund_args start).
Proof.
  destruct (receipt_without_logs bare funding_hash sender None start htlc
              {| logs := [] |} eq_refl eq_refl eq_refl eq_refl) as (_ & Hr).
  exact Hr.
Defined.

Lemma fund_with_refused_estimate :
  build_transaction_as refusing fund_args start =
  (Raise (ProviderError "execution reverted"),
   {| self := fresh;
      served :=
        [GetTransactionCount (checksum sender "0x"); GasPrice;
         EstimateGas
           (fund (contract_of htlc)
              "3a26da82ead15a80533a02696656b14b5dbfd84eb14790f2e1be5e9e45820eeb"
              (checksum recipient "0x") (checksum sender "0x") 1624129000)
           (estimated refusing sender 100000000 1 20000000000)] |}).
Proof.
  apply (refused_estimate refusing fund_args start
           (fund (contract_of htlc)
              "3a26da82ead15a80533a02696656b14b5dbfd84eb14790f2e1be5e9e45820eeb"
              (checksum recipient "0x") (checksum sender "0x") 1624129000)
           1 20000000000 (ProviderError "execution reverted")).
  - exists htlc.
    exists {| secret_hash :=
                "3a26da82ead15a80533a02696656b14b5dbfd84eb14790f2e1be5e9e45820eeb";
              recipient_address := checksum recipient "0x";
              sender_address := checksum sender "0x";
              endtime := 1624129000 |}.
    repeat split.
  - reflexivity.
  - reflexivity.
  - reflexivity.
Defined.

Lemma rebuilt_fund_keeps_hash :
  let st := {| self := signed_fund; served := [] |} in
  TransactionClass.hash (self (snd (build_transaction_as quiet fund_args st))) =
  TransactionClass.hash signed_fund /\
  TransactionClass.type (self (snd (build_transaction_as quiet fund_args st))) =
  Ok (PStr "xinfin_fund_unsigned").
Proof.
  cbv zeta.
  destruct (rebuild_keeps_signature quiet Fund fund_args
              {| self := signed_fund; served := [] |} tt
              (snd (build_transaction_as quiet fund_args
                      {| self := signed_fund; served := [] |}))
              signed_fund_history eq_refl eq_refl) as (Hhash & _ & _ & Hty).
  split; [exact Hhash|exact Hty].
Defined.

End MoreExamples.
